(** * Signed-Asset Gateway (src/index.js): a shallow embedding

    The gateway is an Express application whose handlers translate one HTTP
    request into one storage call (or a short fixed sequence of calls) on an
    S3 client and shape a JSON response.  The development below embeds

    - the JavaScript string primitives the handlers use
      ([Number.prototype.toString], [String.prototype.split],
      [Array.prototype.pop], template literals);
    - the storage collaborator as an interface ([S3Client]) over an abstract
      world, with an in-memory stand-in ([Mem]) that can be told to fail;
    - each route handler as a computation in a small state-and-exception
      monad whose state is the storage world plus the log of storage calls.

    and then states and proves the properties of the handlers. *)

From Stdlib Require Import ZArith String Ascii DecimalString DecimalZ.
From stdpp Require Import gmap strings list fin_maps.

Set Warnings "-register-all".
Open Scope string_scope.
Open Scope Z_scope.

(** ** JavaScript primitives *)

Module JS.

(** [n.toString()] / [`${n}`] for an integral Number.  [Date.now()] is an
    integer of magnitude below 8.64e15, far from the 1e21 at which
    JavaScript switches to exponent notation, so the rendering is the
    plain decimal one (with a leading minus sign below zero). *)
Definition toString (n : Z) : string :=
  NilZero.string_of_int (Z.to_int n).

(** [`${v}`] where [v] is a string or [undefined]. *)
Definition tmpl (v : option string) : string :=
  match v with
  | Some s => s
  | None => "undefined"
  end.

(** [s.split(sep)] for a one-character separator.  The result is never
    empty: [''.split('.')] is [['']]. *)
Fixpoint split (sep : ascii) (s : string) : list string :=
  match s with
  | EmptyString => [ EmptyString ]
  | String c rest =>
      if Ascii.eqb c sep then EmptyString :: split sep rest
      else match split sep rest with
           | [] => [ String c EmptyString ]
           | piece :: pieces => String c piece :: pieces
           end
  end.

(** [arr.pop()] as a value: the last element, [undefined] on []. *)
Definition pop (arr : list string) : option string := last arr.

(** [s.includes(c)] for a one-character [c]. *)
Fixpoint includes (c : ascii) (s : string) : bool :=
  match s with
  | EmptyString => false
  | String d rest => Ascii.eqb d c || includes c rest
  end.

(** Truthiness of a string-or-undefined value, as [||] tests it. *)
Definition truthy (v : option string) : bool :=
  match v with
  | Some EmptyString | None => false
  | Some _ => true
  end.

(** [a || b] on string-or-undefined operands. *)
Definition or_else (a b : option string) : option string :=
  if truthy a then a else b.

(** An [Error] object, as far as the handlers look at it. *)
Record Error := mkError { name : string; message : string }.

End JS.

Definition dot : ascii := "."%char.
Definition slash : ascii := "/"%char.

(** ** HTTP side: request parts and responses *)

(** [req.file] as multer's memory storage fills it. *)
Record File := mkFile {
  originalname : string;
  mimetype : string;
  buffer : list Byte.byte;
  size : Z
}.

(** What [JSON.stringify] is given.  [JDate] is a [Date] (serialised through
    [toJSON]); it is kept as its millisecond value. *)
Inductive Json :=
| JString (s : string)
| JNumber (n : Z)
| JDate (ms : Z)
| JArray (items : list Json)
| JObject (fields : list (string * Json)).

Record Response := mkResponse {
  status : Z;
  body : option Json
}.

(** [res.status(c).json(v)], [res.json(v)] and [res.status(c).end()]. *)
Definition status_json (c : Z) (v : Json) : Response := mkResponse c (Some v).
Definition json (v : Json) : Response := status_json 200 v.
Definition status_end (c : Z) : Response := mkResponse c None.

(** A field of a JSON object response, [None] when the body is not an
    object or has no such field. *)
Definition field (k : string) (r : Response) : option Json :=
  match body r with
  | Some (JObject fs) => snd <$> List.find (fun kv => String.eqb (fst kv) k) fs
  | _ => None
  end.

(** The body, somewhere among the values of its top-level fields, carries
    the text [msg]. *)
Definition echoes (msg : string) (r : Response) : Prop :=
  match body r with
  | Some (JObject fs) => exists k, In (k, JString msg) fs
  | _ => False
  end.

Definition is_client_error (r : Response) : bool :=
  (400 <=? status r) && (status r <? 500).
Definition is_server_error (r : Response) : bool :=
  (500 <=? status r) && (status r <? 600).

(** ** Process configuration ([process.env]) *)

Record Env := mkEnv {
  S3_BUCKET_NAME : option string;
  AWS_REGION : option string
}.

(** ** The storage collaborator *)

(** The parameter object of a [PutObjectCommand]. *)
Record PutParams := mkPut {
  Bucket : option string;
  Key : string;
  Body : list Byte.byte;
  ContentType : string;
  Metadata : option (gmap string string)
}.

(** The commands the gateway builds. *)
Inductive Command :=
| PutObjectCommand (params : PutParams)
| GetObjectCommand (bucket : option string) (key : string)
| DeleteObjectCommand (bucket : option string) (key : string)
| ListObjectsV2Command (bucket : option string) (prefix : option string)
| HeadObjectCommand (bucket : option string) (key : string).

(** What the gateway asks of the SDK: [s3Client.send(cmd)] or
    [getSignedUrl(s3Client, cmd, { expiresIn })]. *)
Inductive Call :=
| Send (cmd : Command)
| GetSignedUrl (cmd : Command) (expiresIn : Z).

(** One entry of [response.Contents]; [objKey] is its [Key] member. *)
Record S3Object := mkObject {
  objKey : string;
  LastModified : Z;
  Size : Z
}.

(** The output of [ListObjectsV2].  [Contents] is an optional member of the
    SDK's output shape: it is [undefined], not [[]], when nothing is
    listed. *)
Record ListOutput := mkList {
  Contents : option (list S3Object)
}.

(** The output of [HeadObject]; [headMetadata] is its [Metadata] member. *)
Record HeadOutput := mkHead {
  headMetadata : option (gmap string string)
}.

(** A settled promise. *)
Inductive Result (A : Type) :=
| Ok (a : A)
| Throw (e : JS.Error).
Arguments Ok {A} a.
Arguments Throw {A} e.

(** The storage service behind the SDK, over a world [W].  Writes (put,
    delete) move the world; reads (list, head, presign) observe it.  A
    request's reads are all answered from the world the request runs in:
    changes made by other requests while it is in flight are not modelled. *)
Record S3Client (W : Type) := mkClient {
  put_object : PutParams -> W -> Result unit * W;
  delete_object : option string -> string -> W -> Result unit * W;
  list_objects : option string -> option string -> W -> Result ListOutput;
  head_object : option string -> string -> W -> Result HeadOutput;
  presign : Command -> Z -> W -> Result string
}.
Arguments put_object {W}.
Arguments delete_object {W}.
Arguments list_objects {W}.
Arguments head_object {W}.
Arguments presign {W}.

(** ** An in-memory stand-in for the storage service

    A bucket as a finite map from keys to objects, answering the way the
    SDK does: [HeadObject] on a missing key rejects with an error named
    [NotFound]; [DeleteObject] on a missing key succeeds; [ListObjectsV2]
    leaves [Contents] undefined when nothing matches.  Each operation can be
    told to fail, to play the part of a storage fault. *)

Record MemObject := mkMemObject {
  mo_body : list Byte.byte;
  mo_type : string;
  mo_meta : option (gmap string string);
  mo_modified : Z
}.

Record Mem := mkMem {
  objects : gmap string MemObject;
  mem_time : Z;
  put_fault : option JS.Error;
  delete_fault : option JS.Error;
  list_fault : option JS.Error;
  head_fault : gmap string JS.Error;
  sign_fault : gmap string JS.Error
}.

Definition not_found : JS.Error := JS.mkError "NotFound" "UnknownError".

Definition mem_put (p : PutParams) (w : Mem) : Result unit * Mem :=
  match put_fault w with
  | Some e => (Throw e, w)
  | None =>
      let o := mkMemObject (Body p) (ContentType p) (Metadata p) (mem_time w) in
      (Ok tt, mkMem (<[Key p := o]> (objects w)) (mem_time w) (put_fault w)
                    (delete_fault w) (list_fault w) (head_fault w) (sign_fault w))
  end.

Definition mem_delete (_ : option string) (key : string) (w : Mem) : Result unit * Mem :=
  match delete_fault w with
  | Some e => (Throw e, w)
  | None =>
      (Ok tt, mkMem (delete key (objects w)) (mem_time w) (put_fault w)
                    (delete_fault w) (list_fault w) (head_fault w) (sign_fault w))
  end.

Definition mem_list (_ : option string) (prefix : option string) (w : Mem) : Result ListOutput :=
  match list_fault w with
  | Some e => Throw e
  | None =>
      let listed :=
        List.filter (fun kv => String.prefix (default "" prefix) (fst kv))
                    (map_to_list (objects w)) in
      let entry (kv : string * MemObject) :=
        mkObject (fst kv) (mo_modified (snd kv)) (Z.of_nat (length (mo_body (snd kv)))) in
      Ok (mkList (match listed with [] => None | _ => Some (entry <$> listed) end))
  end.

Definition mem_head (_ : option string) (key : string) (w : Mem) : Result HeadOutput :=
  match head_fault w !! key with
  | Some e => Throw e
  | None =>
      match objects w !! key with
      | Some o => Ok (mkHead (mo_meta o))
      | None => Throw not_found
      end
  end.

Definition mem_presign (cmd : Command) (expiresIn : Z) (w : Mem) : Result string :=
  match cmd with
  | GetObjectCommand _ key =>
      match sign_fault w !! key with
      | Some e => Throw e
      | None => Ok ("https://signed.test/" ++ key ++ "?expires=" ++ JS.toString expiresIn)
      end
  | _ => Throw (JS.mkError "Error" "unsupported command")
  end.

Definition mem_client : S3Client Mem :=
  mkClient Mem mem_put mem_delete mem_list mem_head mem_presign.

(** A bucket holding [objs], with nothing failing. *)
Definition mem_of (objs : list (string * MemObject)) : Mem :=
  mkMem (list_to_map objs) 0 None None None ∅ ∅.

(** ** The handler monad

    A handler runs against the storage world and appends to the log of the
    calls it made; an [await]ed call either yields a value or throws. *)

Record St (W : Type) := mkSt {
  world : W;
  calls : list Call
}.
Arguments mkSt {W}.
Arguments world {W}.
Arguments calls {W}.

Definition M (W A : Type) : Type := St W -> Result A * St W.

Definition ret {W A} (a : A) : M W A := fun st => (Ok a, st).

Definition throw {W A} (e : JS.Error) : M W A := fun st => (Throw e, st).

Definition bind {W A B} (m : M W A) (k : A -> M W B) : M W B :=
  fun st =>
    match m st with
    | (Ok a, st') => k a st'
    | (Throw e, st') => (Throw e, st')
    end.

Notation "'let*' x ':=' m 'in' k" := (bind m (fun x => k))
  (at level 10, x name, m at level 100, k at level 200).

(** [try { m } catch (e) { h e }] where the catch block is itself a
    computation. *)
Definition try_catch {W A} (m : M W A) (h : JS.Error -> M W A) : M W A :=
  fun st =>
    match m st with
    | (Ok a, st') => (Ok a, st')
    | (Throw e, st') => h e st'
    end.

(** A route handler: its outermost [try]/[catch], whose catch block only
    writes a response. *)
Definition Handler (W : Type) : Type := St W -> Response * St W.

Definition respond {W} (m : M W Response) (h : JS.Error -> Response) : Handler W :=
  fun st =>
    match m st with
    | (Ok r, st') => (r, st')
    | (Throw e, st') => (h e, st')
    end.

(** [await Promise.all(items.map(f))].  Every callback is started, so every
    callback's calls are made whether or not another one rejects; the
    promise rejects if one of them does.  The log lists the calls callback
    by callback, in array order.  (The event loop may interleave them
    differently; reads do not move the world, so only the order of the log
    entries of one batch depends on that.) *)
Fixpoint promise_all_map {W A B} (f : A -> M W B) (items : list A) : M W (list B) :=
  match items with
  | [] => ret []
  | x :: rest =>
      fun st =>
        let '(r, st1) := f x st in
        let '(rs, st2) := promise_all_map f rest st1 in
        (match r, rs with
         | Ok b, Ok bs => Ok (b :: bs)
         | Throw e, _ => Throw e
         | Ok _, Throw e => Throw e
         end, st2)
  end.

(** A field whose value may be [undefined]: [JSON.stringify] leaves such a
    field out. *)
Definition opt_field (k : string) (v : option string) : list (string * Json) :=
  match v with
  | Some s => [ (k, JString s) ]
  | None => []
  end.

(** What the body parser hands to the audio upload callback: an error, or
    the request with [req.file] set or left undefined. *)
Inductive Parsed :=
| ParseError (err : JS.Error)
| ParsedBody (file : option File).

(** The values a request draws from the clock and the random source. *)
Record Draws := mkDraws {
  Date_now : Z;
  uuidv4 : string;
  new_Date : Z
}.

(** ** The route handlers *)

Section Gateway.

Context {W : Type} (s3Client : S3Client W) (env : Env).

(** [await s3Client.send(new XCommand(...))], one per command kind, and
    [await getSignedUrl(s3Client, cmd, { expiresIn })]. *)

Definition send_put (params : PutParams) : M W unit :=
  fun st =>
    let '(r, w) := put_object s3Client params (world st) in
    (r, mkSt w (calls st ++ [Send (PutObjectCommand params)])).

Definition send_delete (bucket : option string) (key : string) : M W unit :=
  fun st =>
    let '(r, w) := delete_object s3Client bucket key (world st) in
    (r, mkSt w (calls st ++ [Send (DeleteObjectCommand bucket key)])).

Definition send_list (bucket prefix : option string) : M W ListOutput :=
  fun st =>
    (list_objects s3Client bucket prefix (world st),
     mkSt (world st) (calls st ++ [Send (ListObjectsV2Command bucket prefix)])).

Definition send_head (bucket : option string) (key : string) : M W HeadOutput :=
  fun st =>
    (head_object s3Client bucket key (world st),
     mkSt (world st) (calls st ++ [Send (HeadObjectCommand bucket key)])).

Definition getSignedUrl (cmd : Command) (expiresIn : Z) : M W string :=
  fun st =>
    (presign s3Client cmd expiresIn (world st),
     mkSt (world st) (calls st ++ [GetSignedUrl cmd expiresIn])).

(** [GET /] *)
Definition get_root : Handler W :=
  fun st => (json (JObject [ ("message", JString "Server is Fine") ]), st).

(** [POST /upload], behind [upload.single('video')]: the handler runs with
    [req.file] set, or undefined when the body had no such file. *)
Definition post_upload (file : option File) (d : Draws) : Handler W :=
  respond
    (match file with
     | None =>
         ret (status_json 400 (JObject [ ("error", JString "No file uploaded") ]))
     | Some f =>
         let params :=
           mkPut (S3_BUCKET_NAME env)
                 (JS.toString (Date_now d) ++ "-" ++ originalname f)
                 (buffer f)
                 (mimetype f)
                 None in
         let* _ := send_put params in
         let fileUrl :=
           "https://" ++ JS.tmpl (S3_BUCKET_NAME env) ++ ".s3."
             ++ JS.tmpl (AWS_REGION env) ++ ".amazonaws.com/" ++ Key params in
         ret (json (JObject [ ("message", JString "Upload successful");
                              ("location", JString fileUrl);
                              ("key", JString (Key params)) ]))
     end)
    (fun err =>
       status_json 500 (JObject [ ("error", JString "Upload failed");
                                  ("details", JString (JS.message err)) ])).

(** [GET /videos] *)
Definition get_videos : Handler W :=
  respond
    (let* response := send_list (S3_BUCKET_NAME env) None in
     let* videos :=
       promise_all_map
         (fun file =>
            let getObjectCommand := GetObjectCommand (S3_BUCKET_NAME env) (objKey file) in
            let* signedUrl := getSignedUrl getObjectCommand 3600 in
            ret (JObject [ ("name", JString (objKey file));
                           ("url", JString signedUrl);
                           ("lastModified", JDate (LastModified file));
                           ("size", JNumber (Size file)) ]))
         (default [] (Contents response)) in
     ret (json (JArray videos)))
    (fun err =>
       status_json 500 (JObject [ ("error", JString "Failed to fetch videos") ])).

(** [POST /api/audio]: the callback given to [audioUpload]. *)
Definition post_audio (req : Parsed) (d : Draws) : Handler W :=
  match req with
  | ParseError err =>
      fun st =>
        (status_json 400 (JObject [ ("error", JString "Audio upload error");
                                    ("details", JString (JS.message err)) ]), st)
  | ParsedBody file =>
      respond
        (match file with
         | None =>
             ret (status_json 400 (JObject [ ("error", JString "No audio file uploaded") ]))
         | Some f =>
             let fileExtension := JS.pop (JS.split dot (originalname f)) in
             let originalName := originalname f in
             let fileId :=
               JS.toString (Date_now d) ++ "-" ++ uuidv4 d ++ "."
                 ++ JS.tmpl fileExtension in
             let fileKey := "audio/" ++ fileId in
             let params :=
               mkPut (S3_BUCKET_NAME env)
                     fileKey
                     (buffer f)
                     (mimetype f)
                     (Some {[ "originalname" := originalName ]}) in
             let* _ := send_put params in
             let* signedUrl :=
               getSignedUrl (GetObjectCommand (S3_BUCKET_NAME env) fileKey) 3600 in
             ret (status_json 201
                    (JObject [ ("id", JString fileId);
                               ("name", JString originalName);
                               ("audioUrl", JString signedUrl);
                               ("createdAt", JDate (new_Date d));
                               ("size", JNumber (size f));
                               ("type", JString (mimetype f)) ]))
         end)
        (fun err =>
           status_json 500 (JObject [ ("error", JString "Audio upload failed");
                                      ("details", JString (JS.message err)) ]))
  end.

(** [metadata.Metadata?.originalname] *)
Definition metadata_originalname (metadata : HeadOutput) : option string :=
  md ← headMetadata metadata; md !! "originalname".

(** The object literal one listed audio file is reported as. *)
Definition audio_json (file : S3Object) (originalName : option string)
    (signedUrl : string) : Json :=
  JObject (opt_field "id" (JS.pop (JS.split slash (objKey file)))
             ++ opt_field "name" originalName
             ++ [ ("url", JString signedUrl);
                  ("lastModified", JDate (LastModified file));
                  ("size", JNumber (Size file)) ]
             ++ opt_field "type" (JS.pop (JS.split dot (objKey file)))).

(** [metadata.Metadata?.originalname || file.Key.split('/').pop()] *)
Definition listed_name (file : S3Object) (metadata : HeadOutput) : option string :=
  JS.or_else (metadata_originalname metadata)
             (JS.pop (JS.split slash (objKey file))).

(** The callback of [GET /api/audio], with its own [try]/[catch]: [null]
    when anything inside throws. *)
Definition audio_entry (file : S3Object) : M W (option Json) :=
  try_catch
    (let* metadata := send_head (S3_BUCKET_NAME env) (objKey file) in
     let originalName := listed_name file metadata in
     let* signedUrl :=
       getSignedUrl (GetObjectCommand (S3_BUCKET_NAME env) (objKey file)) 3600 in
     ret (Some (audio_json file originalName signedUrl)))
    (fun error => ret None).

(** [audioFiles.filter(file => file !== null)] *)
Definition filter_not_null (audioFiles : list (option Json)) : list Json :=
  omap id audioFiles.

(** [response.Contents.map]: reading [map] off [undefined] throws. *)
Definition undefined_map : JS.Error :=
  JS.mkError "TypeError" "Cannot read properties of undefined (reading 'map')".

(** [GET /api/audio] *)
Definition get_audio : Handler W :=
  respond
    (let* response := send_list (S3_BUCKET_NAME env) (Some "audio/") in
     let* audioFiles :=
       match Contents response with
       | None => throw undefined_map
       | Some files => promise_all_map audio_entry files
       end in
     ret (json (JArray (filter_not_null audioFiles))))
    (fun err =>
       status_json 500 (JObject [ ("error", JString "Failed to fetch audio recordings") ])).

(** [GET /api/audio/:id] *)
Definition get_audio_id (id : string) : Handler W :=
  respond
    (let key := "audio/" ++ id in
     let* metadata := send_head (S3_BUCKET_NAME env) key in
     let originalName := JS.or_else (metadata_originalname metadata) (Some id) in
     let* signedUrl := getSignedUrl (GetObjectCommand (S3_BUCKET_NAME env) key) 3600 in
     ret (json (JObject ([ ("id", JString id) ]
                           ++ opt_field "name" originalName
                           ++ [ ("url", JString signedUrl) ]))))
    (fun err =>
       if String.eqb (JS.name err) "NotFound"
       then status_json 404 (JObject [ ("error", JString "Audio recording not found") ])
       else status_json 500 (JObject [ ("error", JString "Failed to fetch audio recording") ])).

(** [DELETE /api/audio/:id] *)
Definition delete_audio_id (id : string) : Handler W :=
  respond
    (let* _ := send_delete (S3_BUCKET_NAME env) ("audio/" ++ id) in
     ret (status_end 204))
    (fun err =>
       status_json 500 (JObject [ ("error", JString "Failed to delete audio recording") ])).

(** The callback read off the world: what it resolves to, and the calls
    it makes (the URL is only minted once the metadata has come back). *)
Definition audio_entry_value (w : W) (file : S3Object) : option Json :=
  match head_object s3Client (S3_BUCKET_NAME env) (objKey file) w with
  | Throw _ => None
  | Ok metadata =>
      match presign s3Client (GetObjectCommand (S3_BUCKET_NAME env) (objKey file)) 3600 w with
      | Throw _ => None
      | Ok signedUrl => Some (audio_json file (listed_name file metadata) signedUrl)
      end
  end.

Definition audio_entry_calls (w : W) (file : S3Object) : list Call :=
  Send (HeadObjectCommand (S3_BUCKET_NAME env) (objKey file))
    :: match head_object s3Client (S3_BUCKET_NAME env) (objKey file) w with
       | Throw _ => []
       | Ok _ => [ GetSignedUrl (GetObjectCommand (S3_BUCKET_NAME env) (objKey file)) 3600 ]
       end.

(** The Express router: one constructor per route. *)
Inductive Request :=
| GET_root
| POST_upload (file : option File) (d : Draws)
| GET_videos
| POST_api_audio (req : Parsed) (d : Draws)
| GET_api_audio
| GET_api_audio_id (id : string)
| DELETE_api_audio_id (id : string).

Definition app (r : Request) : Handler W :=
  match r with
  | GET_root => get_root
  | POST_upload file d => post_upload file d
  | GET_videos => get_videos
  | POST_api_audio req d => post_audio req d
  | GET_api_audio => get_audio
  | GET_api_audio_id id => get_audio_id id
  | DELETE_api_audio_id id => delete_audio_id id
  end.

End Gateway.

(** The display name of an identified asset as the specification words it:
    the [originalname] attribute when present, the trailing path segment of
    the key when metadata retrieval fails or the attribute is absent. *)
Definition spec_display_name (head : Result HeadOutput) (key : string) : option string :=
  match head with
  | Ok metadata =>
      match metadata_originalname metadata with
      | Some n => Some n
      | None => JS.pop (JS.split slash key)
      end
  | Throw _ => JS.pop (JS.split slash key)
  end.

(** The specification's display-name rule, read on one get-by-id request:
    the response names the asset as [spec_display_name] says. *)
Definition display_name_as_stated {W} (s3Client : S3Client W) (env : Env)
    (id : string) (st : St W) : Prop :=
  field "name" (get_audio_id s3Client env id st).1 =
    JString <$> spec_display_name
                  (head_object s3Client (S3_BUCKET_NAME env) ("audio/" ++ id) (world st))
                  ("audio/" ++ id).

(** The specification's rule for storage faults, read on one response: if
    the fault [e] came back as a server error, the body carries its
    message. *)
Definition fault_echoed (r : Response) (e : JS.Error) : Prop :=
  is_server_error r = true -> echoes (JS.message e) r.

(** ** Sample requests and buckets *)

Definition env0 : Env := mkEnv (Some "media") (Some "eu-west-1").

Definition draws0 : Draws :=
  mkDraws 1700000000123 "3f2b8c1e-9a4d-4c6b-8e21-5d7f0a1b2c3d" 1700000000456.

Definition riff : list Byte.byte := [ Byte.x52; Byte.x49; Byte.x46; Byte.x46 ].

Definition clip : File := mkFile "clip.mp4" "video/mp4" riff 4.
Definition demo : File := mkFile "demo.wav" "audio/wav" riff 4.
Definition readme : File := mkFile "README" "text/plain" riff 4.

Definition timeout_fault : JS.Error := JS.mkError "TimeoutError" "socket hang up".

Definition named (n : string) : option (gmap string string) :=
  Some {[ "originalname" := n ]}.

Definition recording (meta : option (gmap string string)) : MemObject :=
  mkMemObject riff "audio/wav" meta 1699999999000.

Definition three_recordings : Mem :=
  mem_of [ ("audio/1-a.wav", recording (named "talk.wav"));
           ("audio/2-b.wav", recording (named "song.wav"));
           ("audio/3-c.wav", recording None) ].

Definition listed (key : string) : S3Object := mkObject key 1699999999000 4.

Definition with_put_fault (e : JS.Error) (m : Mem) : Mem :=
  mkMem (objects m) (mem_time m) (Some e) (delete_fault m) (list_fault m)
        (head_fault m) (sign_fault m).

Definition with_delete_fault (e : JS.Error) (m : Mem) : Mem :=
  mkMem (objects m) (mem_time m) (put_fault m) (Some e) (list_fault m)
        (head_fault m) (sign_fault m).

Definition with_list_fault (e : JS.Error) (m : Mem) : Mem :=
  mkMem (objects m) (mem_time m) (put_fault m) (delete_fault m) (Some e)
        (head_fault m) (sign_fault m).

Definition with_head_fault (key : string) (e : JS.Error) (m : Mem) : Mem :=
  mkMem (objects m) (mem_time m) (put_fault m) (delete_fault m) (list_fault m)
        (<[key := e]> (head_fault m)) (sign_fault m).

Definition with_sign_fault (key : string) (e : JS.Error) (m : Mem) : Mem :=
  mkMem (objects m) (mem_time m) (put_fault m) (delete_fault m) (list_fault m)
        (head_fault m) (<[key := e]> (sign_fault m)).

(** The id the upload of [demo] under [draws0] is given. *)
Definition demo_id : string := "1700000000123-3f2b8c1e-9a4d-4c6b-8e21-5d7f0a1b2c3d.wav".

(** ** Views of the handlers used by the further properties *)

(** What [Promise.all] makes of promises that have all settled: the list of
    values, or a rejection if one of them rejected. *)
Fixpoint settle {B} (rs : list (Result B)) : Result (list B) :=
  match rs with
  | [] => Ok []
  | r :: rest =>
      match r, settle rest with
      | Ok b, Ok bs => Ok (b :: bs)
      | Throw e, _ => Throw e
      | Ok _, Throw e => Throw e
      end
  end.

Section GatewayViews.

Context {W : Type} (s3Client : S3Client W) (env : Env).

(** The object literal one listed video is reported as. *)
Definition video_json (file : S3Object) (signedUrl : string) : Json :=
  JObject [ ("name", JString (objKey file));
            ("url", JString signedUrl);
            ("lastModified", JDate (LastModified file));
            ("size", JNumber (Size file)) ].

(** The callback of [GET /videos] read off the world. *)
Definition video_entry_result (w : W) (file : S3Object) : Result Json :=
  match presign s3Client (GetObjectCommand (S3_BUCKET_NAME env) (objKey file)) 3600 w with
  | Ok signedUrl => Ok (video_json file signedUrl)
  | Throw e => Throw e
  end.

Definition video_entry_calls (file : S3Object) : list Call :=
  [ GetSignedUrl (GetObjectCommand (S3_BUCKET_NAME env) (objKey file)) 3600 ].

(** A call that only reads the bucket named in the configuration: an
    enumeration, a metadata fetch, or the minting of a one-hour URL for a
    [GetObjectCommand]. *)
Definition is_read_call (c : Call) : Prop :=
  match c with
  | Send (ListObjectsV2Command bucket _) => bucket = S3_BUCKET_NAME env
  | Send (HeadObjectCommand bucket _) => bucket = S3_BUCKET_NAME env
  | GetSignedUrl (GetObjectCommand bucket _) expiresIn =>
      bucket = S3_BUCKET_NAME env /\ expiresIn = 3600
  | _ => False
  end.

End GatewayViews.

(** The routes registered with [app.get]. *)
Definition is_get (r : Request) : bool :=
  match r with
  | GET_root | GET_videos | GET_api_audio | GET_api_audio_id _ => true
  | _ => false
  end.


(** ** Facts about the JavaScript primitives *)

Section JSFacts.

(** The rendering of a number reads back as that number. *)
Lemma toString_reads_back (n : Z) :
  Z.of_int <$> NilZero.int_of_string (JS.toString n) = Some n.
Proof.
  unfold JS.toString. rewrite NilZero.isi.
  - simpl. f_equal. apply DecimalZ.of_to.
  - destruct n; simpl; try discriminate.
    intros H. injection H as H. by apply DecimalPos.Unsigned.to_uint_nonnil in H.
  - destruct n; simpl; try discriminate.
    intros H. injection H as H. by apply DecimalPos.Unsigned.to_uint_nonnil in H.
Qed.

Example split_dots : JS.split dot "archive.tar.gz" = [ "archive"; "tar"; "gz" ].
Proof. reflexivity. Qed.

Example split_trailing_dot : JS.split dot "take1." = [ "take1"; "" ].
Proof. reflexivity. Qed.

Example split_empty : JS.split dot "" = [ "" ].
Proof. reflexivity. Qed.

Example last_segment : JS.pop (JS.split slash "audio/2024/7-x.ogg") = Some "7-x.ogg".
Proof. reflexivity. Qed.

Lemma split_not_nil (sep : ascii) (s : string) : JS.split sep s ≠ [].
Proof.
  destruct s as [|c rest]; simpl; [done|].
  destruct (Ascii.eqb c sep); [done|].
  by destruct (JS.split sep rest).
Qed.

(** [pop] after [split] is never [undefined]. *)
Lemma pop_split_defined (sep : ascii) (s : string) :
  is_Some (JS.pop (JS.split sep s)).
Proof.
  unfold JS.pop. pose proof (split_not_nil sep s) as Hne.
  destruct (JS.split sep s) as [|x l] using rev_ind; [done|].
  rewrite last_snoc. eauto.
Qed.

(** Without the separator there is one piece, the whole string. *)
Lemma split_without_sep (sep : ascii) (s : string) :
  JS.includes sep s = false -> JS.split sep s = [s].
Proof.
  induction s as [|c rest IH]; simpl; [done|].
  intros [Hc Hrest]%orb_false_iff.
  rewrite Hc, (IH Hrest). done.
Qed.

(** The last piece of [pre ++ sep ++ suf] is the last piece of [suf]. *)
Lemma pop_split_app (sep : ascii) (pre suf : string) :
  JS.pop (JS.split sep (pre ++ String sep suf)) = JS.pop (JS.split sep suf).
Proof.
  unfold JS.pop. induction pre as [|c pre IH].
  - simpl. rewrite Ascii.eqb_refl.
    pose proof (split_not_nil sep suf).
    destruct (JS.split sep suf); done.
  - change (String c pre ++ String sep suf) with (String c (pre ++ String sep suf)).
    simpl. rewrite <- IH. destruct (Ascii.eqb c sep).
    + pose proof (split_not_nil sep (pre ++ String sep suf)).
      destruct (JS.split sep (pre ++ String sep suf)); done.
    +
      assert (Hlen : exists p q r, JS.split sep (pre ++ String sep suf) = p :: q :: r).
      { clear IH. induction pre as [|d pre IH']; simpl.
        - rewrite Ascii.eqb_refl. pose proof (split_not_nil sep suf).
          destruct (JS.split sep suf) as [|q r]; [done|]. eauto.
        - destruct (Ascii.eqb d sep).
          + pose proof (split_not_nil sep (pre ++ String sep suf)).
            destruct (JS.split sep (pre ++ String sep suf)) as [|q r]; [done|]. eauto.
          + destruct IH' as (p & q & r & ->). eauto. }
      destruct Hlen as (p & q & r & ->). done.
Qed.

(** The text after the last separator. *)
Lemma pop_split_after_last (sep : ascii) (pre suf : string) :
  JS.includes sep suf = false ->
  JS.pop (JS.split sep (pre ++ String sep suf)) = Some suf.
Proof.
  intros H. rewrite pop_split_app, (split_without_sep _ _ H). done.
Qed.

Lemma pop_split_whole (sep : ascii) (s : string) :
  JS.includes sep s = false -> JS.pop (JS.split sep s) = Some s.
Proof. intros H. by rewrite (split_without_sep _ _ H). Qed.

(** A string holding the separator splits at its last occurrence. *)
Lemma last_sep_decomposition (sep : ascii) (s : string) :
  JS.includes sep s = true ->
  exists pre suf, s = pre ++ String sep suf /\ JS.includes sep suf = false.
Proof.
  induction s as [|c rest IH]; simpl; [done|].
  destruct (JS.includes sep rest) eqn:Hrest.
  - intros _. destruct (IH eq_refl) as (pre & suf & -> & Hsuf).
    exists (String c pre), suf. done.
  - rewrite orb_false_r. intros ->%Ascii.eqb_eq.
    exists EmptyString, rest. done.
Qed.

End JSFacts.

(** ** Running the handlers *)

Section Runs.

Context {W : Type} (s3Client : S3Client W) (env : Env).

Lemma omap_id_fmap {A B} (f : A -> option B) (l : list A) :
  omap id (f <$> l) = omap f l.
Proof.
  induction l as [|x l IH]; csimpl; [done|].
  rewrite IH. by destruct (f x).
Qed.

(** The callback never rejects and never moves the world. *)
Lemma audio_entry_run (file : S3Object) (st : St W) :
  audio_entry s3Client env file st =
    (Ok (audio_entry_value s3Client env (world st) file),
     mkSt (world st) (calls st ++ audio_entry_calls s3Client env (world st) file)).
Proof.
  unfold audio_entry, audio_entry_value, audio_entry_calls, try_catch, bind,
    send_head, getSignedUrl, ret.
  simpl. destruct (head_object _ _ _ _) as [metadata|e]; simpl.
  - destruct (presign _ _ _ _) as [url|e]; simpl;
      rewrite <- app_assoc; done.
  - done.
Qed.

Lemma audio_batch_run (files : list S3Object) (st : St W) :
  promise_all_map (audio_entry s3Client env) files st =
    (Ok (audio_entry_value s3Client env (world st) <$> files),
     mkSt (world st)
          (calls st ++ (files ≫= audio_entry_calls s3Client env (world st)))).
Proof.
  revert st. induction files as [|file files IH]; intros st.
  - simpl. unfold ret. rewrite app_nil_r. by destruct st.
  - simpl. rewrite audio_entry_run, IH. simpl.
    rewrite <- app_assoc. done.
Qed.

(** When the enumeration succeeds with a [Contents] array, the response
    is 200 with one entry per callback that did not come back [null]. *)
Lemma get_audio_listed (files : list S3Object) (st : St W) :
  list_objects s3Client (S3_BUCKET_NAME env) (Some "audio/") (world st) = Ok (mkList (Some files)) ->
  get_audio s3Client env st =
    (json (JArray (omap (audio_entry_value s3Client env (world st)) files)),
     mkSt (world st)
          (calls st ++ Send (ListObjectsV2Command (S3_BUCKET_NAME env) (Some "audio/"))
             :: (files ≫= audio_entry_calls s3Client env (world st)))).
Proof.
  intros Hlist. unfold get_audio, respond, bind, send_list. rewrite Hlist. simpl.
  rewrite audio_batch_run. simpl. unfold filter_not_null.
  rewrite omap_id_fmap, <- app_assoc. done.
Qed.

Lemma omap_app_cons_None {A B} (f : A -> option B) (before after : list A) (x : A) :
  f x = None -> omap f (before ++ x :: after)%list = omap f (before ++ after)%list.
Proof. intros Hx. rewrite !omap_app. simpl. by rewrite Hx. Qed.

Lemma elem_of_omap_Some {A B} (f : A -> option B) (l : list A) (x : A) (y : B) :
  x ∈ l -> f x = Some y -> y ∈ omap f l.
Proof. intros Hin Hx. apply list_elem_of_omap. eauto. Qed.

Lemma omap_all_Some {A B} (f : A -> option B) (l : list A) :
  Forall (fun x => is_Some (f x)) l ->
  Forall2 (fun x y => f x = Some y) l (omap f l).
Proof.
  induction 1 as [|x l [y Hy] _ IH]; csimpl; [constructor|].
  rewrite Hy. simpl. by constructor.
Qed.

(** When the enumeration succeeds but [Contents] is undefined, reading
    [map] off it throws and the outer catch answers 500. *)
Lemma get_audio_undefined_contents (st : St W) :
  list_objects s3Client (S3_BUCKET_NAME env) (Some "audio/") (world st) = Ok (mkList None) ->
  get_audio s3Client env st =
    (status_json 500 (JObject [ ("error", JString "Failed to fetch audio recordings") ]),
     mkSt (world st)
          (calls st ++ [ Send (ListObjectsV2Command (S3_BUCKET_NAME env) (Some "audio/")) ])).
Proof.
  intros Hlist. unfold get_audio, respond, bind, send_list. by rewrite Hlist.
Qed.

End Runs.

(** ** Properties of the handlers *)

Section Claims.

Context {W : Type} (s3Client : S3Client W).

(** C1.  A plain upload carrying a file, whose put the storage accepts, is
  stored under the key made of the decimal rendering of the clock reading,
  a dash and the original file name as it came; the response is the 200
  success message with [location] equal to
  [https://{bucket}.s3.{region}.amazonaws.com/{key}] and [key] equal to
  that key.  The put is the only storage call made. *)
Theorem post_upload_key_and_location
  (bucketName region : string) (f : File) (d : Draws) (st : St W) (w' : W) :
let env := mkEnv (Some bucketName) (Some region) in
let key := JS.toString (Date_now d) ++ "-" ++ originalname f in
let params := mkPut (Some bucketName) key (buffer f) (mimetype f) None in
put_object s3Client params (world st) = (Ok tt, w') ->
Z.of_int <$> NilZero.int_of_string (JS.toString (Date_now d)) = Some (Date_now d)
/\ post_upload s3Client env (Some f) d st =
     (json (JObject
              [ ("message", JString "Upload successful");
                ("location",
                 JString ("https://" ++ bucketName ++ ".s3." ++ region
                            ++ ".amazonaws.com/" ++ key));
                ("key", JString key) ]),
      mkSt w' (calls st ++ [ Send (PutObjectCommand params) ])).
Proof.
intros env key params Hput. split; [apply toString_reads_back|].
unfold post_upload, respond, bind, send_put. simpl.
fold key. fold params. rewrite Hput. done.
Qed.

(** C4.  An upload request without a file is answered 400 on both upload
  routes; the answer is a client error and not a server error, and the
  handler returns in the state it started in: no storage call is logged
  and the storage world is untouched. *)
Theorem upload_without_file_is_client_error (env : Env) (d : Draws) (st : St W) :
let r1 := app s3Client env (POST_upload None d) st in
let r2 := app s3Client env (POST_api_audio (ParsedBody None) d) st in
(r1 = (status_json 400 (JObject [ ("error", JString "No file uploaded") ]), st)
 /\ r2 = (status_json 400 (JObject [ ("error", JString "No audio file uploaded") ]), st))
/\ (is_client_error r1.1 = true /\ is_server_error r1.1 = false)
/\ (is_client_error r2.1 = true /\ is_server_error r2.1 = false)
/\ (calls r1.2 = calls st /\ calls r2.2 = calls st).
Proof. by repeat split. Qed.

(** C3.  An identified audio upload carrying a file, whose put and URL
  minting succeed, uses as extension the text after the last dot of the
  original file name, or the whole name when it has no dot; the object is
  put under [audio/{id}] and the 201 response carries
  [id = {clock reading}-{uuid}.{extension}]. *)
Theorem post_audio_identifier
  (env : Env) (f : File) (d : Draws) (st : St W) (w' : W) (url : string) :
let extension := JS.tmpl (JS.pop (JS.split dot (originalname f))) in
let id := JS.toString (Date_now d) ++ "-" ++ uuidv4 d ++ "." ++ extension in
let key := "audio/" ++ id in
let params :=
  mkPut (S3_BUCKET_NAME env) key (buffer f) (mimetype f)
        (Some {[ "originalname" := originalname f ]}) in
put_object s3Client params (world st) = (Ok tt, w') ->
presign s3Client (GetObjectCommand (S3_BUCKET_NAME env) key) 3600 w' = Ok url ->
(JS.includes dot (originalname f) = false -> extension = originalname f)
/\ (forall pre suf,
      originalname f = pre ++ String dot suf ->
      JS.includes dot suf = false ->
      extension = suf)
/\ post_audio s3Client env (ParsedBody (Some f)) d st =
     (status_json 201
        (JObject [ ("id", JString id);
                   ("name", JString (originalname f));
                   ("audioUrl", JString url);
                   ("createdAt", JDate (new_Date d));
                   ("size", JNumber (size f));
                   ("type", JString (mimetype f)) ]),
      mkSt w' (calls st ++ [ Send (PutObjectCommand params);
                             GetSignedUrl (GetObjectCommand (S3_BUCKET_NAME env) key) 3600 ])).
Proof.
intros extension id key params Hput Hsign. repeat split.
- intros Hnodot. unfold extension. by rewrite pop_split_whole.
- intros pre suf Hname Hnodot. unfold extension.
  by rewrite Hname, pop_split_after_last.
- unfold post_audio, respond, bind, send_put, getSignedUrl. simpl.
  fold extension. fold id. fold key. fold params.
  rewrite Hput. simpl. rewrite Hsign. simpl. rewrite <- app_assoc. done.
Qed.

(** C6.  When a storage call of the get-by-id handler (the metadata fetch,
  or the URL minting after it) throws, the answer is 404 "not found" if
  the fault is named [NotFound] and a 500 server error for every other
  fault. *)
Theorem get_audio_id_fault_status (env : Env) (id : string) (st : St W) (e : JS.Error) :
let key := "audio/" ++ id in
let r := (get_audio_id s3Client env id st).1 in
head_object s3Client (S3_BUCKET_NAME env) key (world st) = Throw e
\/ (exists metadata,
      head_object s3Client (S3_BUCKET_NAME env) key (world st) = Ok metadata
      /\ presign s3Client (GetObjectCommand (S3_BUCKET_NAME env) key) 3600 (world st)
         = Throw e) ->
(JS.name e = "NotFound" ->
   r = status_json 404 (JObject [ ("error", JString "Audio recording not found") ])
   /\ is_client_error r = true)
/\ (JS.name e <> "NotFound" ->
      r = status_json 500 (JObject [ ("error", JString "Failed to fetch audio recording") ])
      /\ is_server_error r = true).
Proof.
intros key r Hfault.
assert (Hr : r = if String.eqb (JS.name e) "NotFound"
                 then status_json 404 (JObject [ ("error", JString "Audio recording not found") ])
                 else status_json 500 (JObject [ ("error", JString "Failed to fetch audio recording") ])).
{ unfold r, get_audio_id, respond, bind, send_head, getSignedUrl. simpl. fold key.
  destruct Hfault as [Hhead | (metadata & Hhead & Hsign)].
  - rewrite Hhead. done.
  - rewrite Hhead. simpl. rewrite Hsign. done. }
split.
- intros Hname. rewrite Hr. apply String.eqb_eq in Hname. rewrite Hname. done.
- intros Hname. rewrite Hr. apply String.eqb_neq in Hname. rewrite Hname. done.
Qed.

(** C7.  The delete handler makes one storage call, the delete of
  [audio/{id}], with no existence check before it; when that call returns
  the answer is 204 with no body, and when it throws, whatever the fault,
  the answer is a 500 server error.  Against a store whose delete is
  idempotent (the in-memory bucket) the answer is therefore the same 204
  whether or not the key was there. *)
Theorem delete_audio_id_outcomes (env : Env) (id : string) (st : St W) :
let key := "audio/" ++ id in
let run := delete_audio_id s3Client env id st in
calls run.2 = (calls st ++ [ Send (DeleteObjectCommand (S3_BUCKET_NAME env) key) ])%list
/\ (forall w',
      delete_object s3Client (S3_BUCKET_NAME env) key (world st) = (Ok tt, w') ->
      run.1 = status_end 204 /\ body run.1 = None /\ world run.2 = w')
/\ (forall e w',
      delete_object s3Client (S3_BUCKET_NAME env) key (world st) = (Throw e, w') ->
      run.1 = status_json 500 (JObject [ ("error", JString "Failed to delete audio recording") ])
      /\ is_server_error run.1 = true)
/\ (forall (m : Mem) (log : list Call),
      delete_fault m = None ->
      let mrun := delete_audio_id mem_client env id (mkSt m log) in
      mrun.1 = status_end 204
      /\ objects (world mrun.2) = delete key (objects m)
      /\ calls mrun.2 = (log ++ [ Send (DeleteObjectCommand (S3_BUCKET_NAME env) key) ])%list).
Proof.
intros key run. unfold run, delete_audio_id, respond, bind, send_delete. simpl. fold key.
split; [|split; [|split]].
- by destruct (delete_object _ _ _ _) as [[[]|e] w1].
- intros w' Hdel. by rewrite Hdel.
- intros e w' Hdel. by rewrite Hdel.
- intros m log Hnofault. unfold mem_delete. by rewrite Hnofault.
Qed.

(** C5.  If the enumeration returns the objects [before ++ file :: after]
  and the metadata fetch of [file] throws, the request still answers 200,
  with the array the other objects alone give: [file] is left out, every
  other object whose own metadata fetch and URL minting succeed is in the
  array, and when that is so for all of them the array has exactly their
  entries, in enumeration order. *)
Theorem get_audio_drops_on_head_fault
  (env : Env) (st : St W) (before after : list S3Object) (file : S3Object)
  (e : JS.Error) :
let r := (get_audio s3Client env st).1 in
let others := (before ++ after)%list in
list_objects s3Client (S3_BUCKET_NAME env) (Some "audio/") (world st)
  = Ok (mkList (Some (before ++ file :: after)%list)) ->
head_object s3Client (S3_BUCKET_NAME env) (objKey file) (world st) = Throw e ->
exists items,
  r = json (JArray items)
  /\ items = omap (audio_entry_value s3Client env (world st)) others
  /\ (forall other metadata url,
        other ∈ others ->
        head_object s3Client (S3_BUCKET_NAME env) (objKey other) (world st) = Ok metadata ->
        presign s3Client (GetObjectCommand (S3_BUCKET_NAME env) (objKey other)) 3600 (world st)
          = Ok url ->
        audio_json other (listed_name other metadata) url ∈ items)
  /\ (Forall (fun other => is_Some (audio_entry_value s3Client env (world st) other)) others ->
      Forall2 (fun other item => audio_entry_value s3Client env (world st) other = Some item)
              others items).
Proof.
intros r others Hlist Hhead.
exists (omap (audio_entry_value s3Client env (world st)) others).
split; [|split; [done|split]].
- unfold r. rewrite (get_audio_listed _ _ _ _ Hlist). simpl.
  rewrite omap_app_cons_None; [done|].
  unfold audio_entry_value. by rewrite Hhead.
- intros other metadata url Hin Hh Hs.
  apply (elem_of_omap_Some _ _ other); [done|].
  unfold audio_entry_value. by rewrite Hh, Hs.
- apply omap_all_Some.
Qed.

(** C10.  If the enumeration returns the objects [before ++ file :: after],
  the metadata fetch of [file] succeeds and minting its signed URL throws,
  the request still answers 200 with the array the other objects alone
  give: the per-item recovery covers the minting too. *)
Theorem get_audio_drops_on_sign_fault
  (env : Env) (st : St W) (before after : list S3Object) (file : S3Object)
  (metadata : HeadOutput) (e : JS.Error) :
let r := (get_audio s3Client env st).1 in
list_objects s3Client (S3_BUCKET_NAME env) (Some "audio/") (world st)
  = Ok (mkList (Some (before ++ file :: after)%list)) ->
head_object s3Client (S3_BUCKET_NAME env) (objKey file) (world st) = Ok metadata ->
presign s3Client (GetObjectCommand (S3_BUCKET_NAME env) (objKey file)) 3600 (world st)
  = Throw e ->
(audio_entry s3Client env file st).1 = Ok None
/\ r = json (JArray (omap (audio_entry_value s3Client env (world st)) (before ++ after)%list))
/\ status r = 200.
Proof.
intros r Hlist Hhead Hsign.
assert (Hnull : audio_entry_value s3Client env (world st) file = None).
{ unfold audio_entry_value. by rewrite Hhead, Hsign. }
split; [|split].
- rewrite audio_entry_run. simpl. by rewrite Hnull.
- unfold r. rewrite (get_audio_listed _ _ _ _ Hlist). simpl.
  by rewrite omap_app_cons_None.
- unfold r. by rewrite (get_audio_listed _ _ _ _ Hlist).
Qed.

(** C9, amended.  An identified asset that is returned (its metadata fetch
  and URL minting both succeed) is named by its [originalname] attribute
  when that is present and not empty, and, when the metadata map or the
  attribute is absent, by the trailing path segment of its key in the
  listing and by the request identifier in get-by-id (which is the
  trailing segment of [audio/{id}] when the identifier holds no slash).
  When the metadata fetch throws there is no fallback name: the listing
  callback resolves to [null] and get-by-id answers 404 or 500 with no
  [name] field. *)
Theorem display_name_recovery (env : Env) (st : St W) :
(forall files file metadata url,
    list_objects s3Client (S3_BUCKET_NAME env) (Some "audio/") (world st)
      = Ok (mkList (Some files)) ->
    file ∈ files ->
    head_object s3Client (S3_BUCKET_NAME env) (objKey file) (world st) = Ok metadata ->
    presign s3Client (GetObjectCommand (S3_BUCKET_NAME env) (objKey file)) 3600 (world st)
      = Ok url ->
    exists shown items,
      (get_audio s3Client env st).1 = json (JArray items)
      /\ audio_json file (Some shown) url ∈ items
      /\ (forall n, metadata_originalname metadata = Some n -> n <> "" -> shown = n)
      /\ (metadata_originalname metadata = None ->
          JS.pop (JS.split slash (objKey file)) = Some shown))
/\ (forall file e,
      head_object s3Client (S3_BUCKET_NAME env) (objKey file) (world st) = Throw e ->
      (audio_entry s3Client env file st).1 = Ok None)
/\ (forall id metadata url,
      head_object s3Client (S3_BUCKET_NAME env) ("audio/" ++ id) (world st) = Ok metadata ->
      presign s3Client (GetObjectCommand (S3_BUCKET_NAME env) ("audio/" ++ id)) 3600 (world st)
        = Ok url ->
      exists shown,
        (get_audio_id s3Client env id st).1 =
          json (JObject [ ("id", JString id); ("name", JString shown); ("url", JString url) ])
        /\ (forall n, metadata_originalname metadata = Some n -> n <> "" -> shown = n)
        /\ (metadata_originalname metadata = None ->
            shown = id
            /\ (JS.includes slash id = false ->
                JS.pop (JS.split slash ("audio/" ++ id)) = Some shown)))
/\ (forall id e,
      head_object s3Client (S3_BUCKET_NAME env) ("audio/" ++ id) (world st) = Throw e ->
      field "name" (get_audio_id s3Client env id st).1 = None
      /\ (status (get_audio_id s3Client env id st).1 = 404
          \/ status (get_audio_id s3Client env id st).1 = 500)).
Proof.
split; [|split; [|split]].
- intros files file metadata url Hlist Hin Hhead Hsign.
  destruct (pop_split_defined slash (objKey file)) as [segment Hsegment].
  assert (Hshown : exists shown,
             listed_name file metadata = Some shown
             /\ (forall n, metadata_originalname metadata = Some n -> n <> "" -> shown = n)
             /\ (metadata_originalname metadata = None ->
                 JS.pop (JS.split slash (objKey file)) = Some shown)).
  { unfold listed_name, JS.or_else. rewrite Hsegment.
    destruct (metadata_originalname metadata) as [[|c n]|]; simpl.
    - exists segment. split; [done|]. split; [|done]. by intros ? [= <-] ?.
    - exists (String c n). split; [done|]. split; [|done]. by intros ? [= <-] _.
    - exists segment. done. }
  destruct Hshown as (shown & Hname & Hpresent & Habsent).
  exists shown, (omap (audio_entry_value s3Client env (world st)) files).
  split; [by rewrite (get_audio_listed _ _ _ _ Hlist)|].
  split; [|done].
  apply (elem_of_omap_Some _ _ file); [done|].
  unfold audio_entry_value. by rewrite Hhead, Hsign, Hname.
- intros file e Hhead. rewrite audio_entry_run. simpl.
  unfold audio_entry_value. by rewrite Hhead.
- intros id metadata url Hhead Hsign.
  unfold get_audio_id, respond, bind, send_head, getSignedUrl. simpl.
  rewrite Hhead. simpl. rewrite Hsign. simpl. unfold JS.or_else.
  destruct (metadata_originalname metadata) as [[|c n]|]; simpl.
  + exists id. split; [done|]. split; [|done]. by intros ? [= <-] ?.
  + exists (String c n). split; [done|]. split; [|done]. by intros ? [= <-] _.
  + exists id. split; [done|]. split; [done|]. intros _. split; [done|].
    intros Hnoslash.
    exact (pop_split_after_last slash "audio" id Hnoslash).
- intros id e Hhead.
  unfold get_audio_id, respond, bind, send_head. simpl. rewrite Hhead.
  destruct (String.eqb (JS.name e) "NotFound"); simpl; auto.
Qed.

(** C2, amended.  On the two upload routes a storage fault comes back as a
  500 whose body holds the error label and, under [details], the fault's
  message as it is.  On the listing, get-by-id and delete routes a storage
  fault that comes back as a 500 has a body holding the error label
  alone. *)
Theorem storage_fault_responses (env : Env) (e : JS.Error) :
(forall f d st w' params,
    params = mkPut (S3_BUCKET_NAME env)
                   (JS.toString (Date_now d) ++ "-" ++ originalname f)
                   (buffer f) (mimetype f) None ->
    put_object s3Client params (world st) = (Throw e, w') ->
    (post_upload s3Client env (Some f) d st).1 =
      status_json 500 (JObject [ ("error", JString "Upload failed");
                                 ("details", JString (JS.message e)) ]))
/\ (forall f d st w' params,
      params = mkPut (S3_BUCKET_NAME env)
                     ("audio/" ++ JS.toString (Date_now d) ++ "-" ++ uuidv4 d ++ "."
                        ++ JS.tmpl (JS.pop (JS.split dot (originalname f))))
                     (buffer f) (mimetype f)
                     (Some {[ "originalname" := originalname f ]}) ->
      put_object s3Client params (world st) = (Throw e, w')
      \/ (put_object s3Client params (world st) = (Ok tt, w')
          /\ presign s3Client (GetObjectCommand (S3_BUCKET_NAME env) (Key params)) 3600 w'
             = Throw e) ->
      (post_audio s3Client env (ParsedBody (Some f)) d st).1 =
        status_json 500 (JObject [ ("error", JString "Audio upload failed");
                                   ("details", JString (JS.message e)) ]))
/\ (forall st,
      is_server_error (get_videos s3Client env st).1 = true ->
      (get_videos s3Client env st).1 =
        status_json 500 (JObject [ ("error", JString "Failed to fetch videos") ]))
/\ (forall st,
      is_server_error (get_audio s3Client env st).1 = true ->
      (get_audio s3Client env st).1 =
        status_json 500 (JObject [ ("error", JString "Failed to fetch audio recordings") ]))
/\ (forall id st,
      is_server_error (get_audio_id s3Client env id st).1 = true ->
      (get_audio_id s3Client env id st).1 =
        status_json 500 (JObject [ ("error", JString "Failed to fetch audio recording") ]))
/\ (forall id st,
      is_server_error (delete_audio_id s3Client env id st).1 = true ->
      (delete_audio_id s3Client env id st).1 =
        status_json 500 (JObject [ ("error", JString "Failed to delete audio recording") ])).
Proof.
repeat apply conj.
- intros f d st w' params -> Hput.
  unfold post_upload, respond, bind, send_put. simpl. by rewrite Hput.
- intros f d st w' params -> Hfault.
  unfold post_audio, respond, bind, send_put, getSignedUrl. simpl.
  destruct Hfault as [Hput | [Hput Hsign]]; rewrite Hput; simpl; [done|].
  simpl in Hsign. by rewrite Hsign.
- intros st. unfold get_videos, respond, bind, send_list. simpl.
  destruct (list_objects _ _ _ _) as [response|e']; simpl; [|done].
  by destruct (promise_all_map _ _ _) as [[videos|e'] st'].
- intros st. unfold get_audio, respond, bind, send_list. simpl.
  destruct (list_objects _ _ _ _) as [[[files|]]|e']; simpl; [|done..].
  by destruct (promise_all_map _ _ _) as [[audioFiles|e'] st'].
- intros id st. unfold get_audio_id, respond, bind, send_head, getSignedUrl. simpl.
  destruct (head_object _ _ _ _) as [metadata|e']; simpl.
  + destruct (presign _ _ _ _) as [url|e']; simpl; [done|].
    by destruct (String.eqb (JS.name e') "NotFound").
  + by destruct (String.eqb (JS.name e') "NotFound").
- intros id st. unfold delete_audio_id, respond, bind, send_delete. simpl.
  by destruct (delete_object _ _ _ _) as [[[]|e'] w'].
Qed.

End Claims.

(** ** The handlers on sample requests *)

(** C8.  On a bucket with nothing under [audio/] the enumeration succeeds
    with [Contents] undefined; the audio listing then answers 500, where the
    plain listing, which reads [response.Contents || []], answers 200 with
    the empty array. *)
Theorem get_audio_nothing_listed (env : Env) (log : list Call) :
  mem_list (S3_BUCKET_NAME env) (Some "audio/") (mem_of []) = Ok (mkList None)
  /\ (get_audio mem_client env (mkSt (mem_of []) log)).1 =
       status_json 500 (JObject [ ("error", JString "Failed to fetch audio recordings") ])
  /\ is_server_error (get_audio mem_client env (mkSt (mem_of []) log)).1 = true
  /\ (get_videos mem_client env (mkSt (mem_of []) log)).1 = json (JArray []).
Proof.
  assert (Hlist : mem_list (S3_BUCKET_NAME env) (Some "audio/") (mem_of []) = Ok (mkList None))
    by reflexivity.
  split; [done|].
  rewrite (get_audio_undefined_contents mem_client env (mkSt (mem_of []) log) Hlist).
  by repeat split.
Qed.

(** C2 fails as stated: the plain listing answers a storage fault with a
    500 whose body holds the label alone, not the fault's message. *)
Lemma videos_fault_not_echoed :
  ~ fault_echoed
      (get_videos mem_client env0 (mkSt (with_list_fault timeout_fault three_recordings) [])).1
      timeout_fault.
Proof.
  unfold fault_echoed. intros Hechoed.
  specialize (Hechoed eq_refl).
  destruct Hechoed as [k [Hfield | []]]. discriminate Hfield.
Qed.

(** C9 fails as stated: when the metadata fetch throws, get-by-id names
    nothing (it answers 500) where the rule gives the trailing key segment;
    and an [originalname] attribute that is present but empty is not what
    the response shows. *)
Lemma display_name_not_as_stated :
  ~ display_name_as_stated mem_client env0 "2-b.wav"
      (mkSt (with_head_fault "audio/2-b.wav" timeout_fault three_recordings) [])
  /\ ~ display_name_as_stated mem_client env0 "4-d.wav"
        (mkSt (mem_of [ ("audio/4-d.wav", recording (named "")) ]) []).
Proof.
  split; unfold display_name_as_stated; vm_compute; discriminate.
Qed.

(** A plain upload of [clip.mp4] into the empty bucket. *)
Lemma post_upload_key_and_location_witness :
  (post_upload mem_client env0 (Some clip) draws0 (mkSt (mem_of []) [])).1 =
    json (JObject
            [ ("message", JString "Upload successful");
              ("location",
               JString "https://media.s3.eu-west-1.amazonaws.com/1700000000123-clip.mp4");
              ("key", JString "1700000000123-clip.mp4") ]).
Proof.
  destruct (post_upload_key_and_location mem_client "media" "eu-west-1" clip draws0
              (mkSt (mem_of []) [])
              (mem_put (mkPut (Some "media") "1700000000123-clip.mp4" riff "video/mp4" None)
                       (mem_of [])).2
              eq_refl) as [_ Hrun].
  change (mkEnv (Some "media") (Some "eu-west-1")) with env0 in Hrun.
  rewrite Hrun. reflexivity.
Defined.

(** Audio uploads of [demo.wav] and of the dotless [README]. *)
Lemma post_audio_identifier_witness :
  (post_audio mem_client env0 (ParsedBody (Some demo)) draws0 (mkSt (mem_of []) [])).1 =
    status_json 201
      (JObject [ ("id", JString "1700000000123-3f2b8c1e-9a4d-4c6b-8e21-5d7f0a1b2c3d.wav");
                 ("name", JString "demo.wav");
                 ("audioUrl",
                  JString "https://signed.test/audio/1700000000123-3f2b8c1e-9a4d-4c6b-8e21-5d7f0a1b2c3d.wav?expires=3600");
                 ("createdAt", JDate 1700000000456);
                 ("size", JNumber 4);
                 ("type", JString "audio/wav") ])
  /\ field "id" (post_audio mem_client env0 (ParsedBody (Some readme)) draws0
                   (mkSt (mem_of []) [])).1 =
       Some (JString "1700000000123-3f2b8c1e-9a4d-4c6b-8e21-5d7f0a1b2c3d.README").
Proof.
  split.
  - destruct (post_audio_identifier mem_client env0 demo draws0 (mkSt (mem_of []) [])
                (mem_put
                   (mkPut (Some "media")
                          "audio/1700000000123-3f2b8c1e-9a4d-4c6b-8e21-5d7f0a1b2c3d.wav"
                          riff "audio/wav" (named "demo.wav"))
                   (mem_of [])).2
                "https://signed.test/audio/1700000000123-3f2b8c1e-9a4d-4c6b-8e21-5d7f0a1b2c3d.wav?expires=3600"
                eq_refl eq_refl) as (_ & _ & Hrun).
    rewrite Hrun. reflexivity.
  - destruct (post_audio_identifier mem_client env0 readme draws0 (mkSt (mem_of []) [])
                (mem_put
                   (mkPut (Some "media")
                          "audio/1700000000123-3f2b8c1e-9a4d-4c6b-8e21-5d7f0a1b2c3d.README"
                          riff "text/plain" (named "README"))
                   (mem_of [])).2
                "https://signed.test/audio/1700000000123-3f2b8c1e-9a4d-4c6b-8e21-5d7f0a1b2c3d.README?expires=3600"
                eq_refl eq_refl) as (_ & _ & Hrun).
    rewrite Hrun. reflexivity.
Defined.

(** Three recordings are listed; the metadata fetch of [audio/1-a.wav] is
    made to fail. *)
Lemma get_audio_drops_on_head_fault_witness :
  (get_audio mem_client env0
     (mkSt (with_head_fault "audio/1-a.wav" timeout_fault three_recordings) [])).1 =
    json (JArray
            [ JObject [ ("id", JString "3-c.wav"); ("name", JString "3-c.wav");
                        ("url", JString "https://signed.test/audio/3-c.wav?expires=3600");
                        ("lastModified", JDate 1699999999000);
                        ("size", JNumber 4); ("type", JString "wav") ];
              JObject [ ("id", JString "2-b.wav"); ("name", JString "song.wav");
                        ("url", JString "https://signed.test/audio/2-b.wav?expires=3600");
                        ("lastModified", JDate 1699999999000);
                        ("size", JNumber 4); ("type", JString "wav") ] ]).
Proof.
  destruct (get_audio_drops_on_head_fault mem_client env0
              (mkSt (with_head_fault "audio/1-a.wav" timeout_fault three_recordings) [])
              [ listed "audio/3-c.wav" ] [ listed "audio/2-b.wav" ] (listed "audio/1-a.wav")
              timeout_fault eq_refl eq_refl) as (items & Hr & Hitems & _).
  rewrite Hr, Hitems. reflexivity.
Defined.

(** The same three recordings; minting the URL of [audio/1-a.wav] is made
    to fail. *)
Lemma get_audio_drops_on_sign_fault_witness :
  (get_audio mem_client env0
     (mkSt (with_sign_fault "audio/1-a.wav" timeout_fault three_recordings) [])).1 =
    json (JArray
            [ JObject [ ("id", JString "3-c.wav"); ("name", JString "3-c.wav");
                        ("url", JString "https://signed.test/audio/3-c.wav?expires=3600");
                        ("lastModified", JDate 1699999999000);
                        ("size", JNumber 4); ("type", JString "wav") ];
              JObject [ ("id", JString "2-b.wav"); ("name", JString "song.wav");
                        ("url", JString "https://signed.test/audio/2-b.wav?expires=3600");
                        ("lastModified", JDate 1699999999000);
                        ("size", JNumber 4); ("type", JString "wav") ] ]).
Proof.
  destruct (get_audio_drops_on_sign_fault mem_client env0
              (mkSt (with_sign_fault "audio/1-a.wav" timeout_fault three_recordings) [])
              [ listed "audio/3-c.wav" ] [ listed "audio/2-b.wav" ] (listed "audio/1-a.wav")
              (mkHead (named "talk.wav")) timeout_fault eq_refl eq_refl eq_refl)
    as (_ & Hr & _).
  rewrite Hr. reflexivity.
Defined.

(** A missing recording is answered 404; a recording whose metadata fetch
    times out is answered 500. *)
Lemma get_audio_id_fault_status_witness :
  (get_audio_id mem_client env0 "9-z.wav" (mkSt three_recordings [])).1 =
    status_json 404 (JObject [ ("error", JString "Audio recording not found") ])
  /\ (get_audio_id mem_client env0 "2-b.wav"
        (mkSt (with_head_fault "audio/2-b.wav" timeout_fault three_recordings) [])).1 =
       status_json 500 (JObject [ ("error", JString "Failed to fetch audio recording") ]).
Proof.
  split.
  - destruct (get_audio_id_fault_status mem_client env0 "9-z.wav" (mkSt three_recordings [])
                not_found (or_introl eq_refl)) as [Hnotfound _].
    exact (proj1 (Hnotfound eq_refl)).
  - destruct (get_audio_id_fault_status mem_client env0 "2-b.wav"
                (mkSt (with_head_fault "audio/2-b.wav" timeout_fault three_recordings) [])
                timeout_fault (or_introl eq_refl)) as [_ Hother].
    refine (proj1 (Hother _)). discriminate.
Defined.

(** Deleting a recording that is there and one that is not: both 204. *)
Lemma delete_audio_id_outcomes_witness :
  (delete_audio_id mem_client env0 "1-a.wav" (mkSt three_recordings [])).1 = status_end 204
  /\ (delete_audio_id mem_client env0 "9-z.wav" (mkSt three_recordings [])).1 = status_end 204
  /\ (delete_audio_id mem_client env0 "1-a.wav"
        (mkSt (with_delete_fault timeout_fault three_recordings) [])).1 =
       status_json 500 (JObject [ ("error", JString "Failed to delete audio recording") ]).
Proof.
  split; [|split].
  - destruct (delete_audio_id_outcomes mem_client env0 "1-a.wav" (mkSt three_recordings []))
      as (_ & _ & _ & Hmem).
    exact (proj1 (Hmem three_recordings [] eq_refl)).
  - destruct (delete_audio_id_outcomes mem_client env0 "9-z.wav" (mkSt three_recordings []))
      as (_ & Hok & _ & _).
    exact (proj1 (Hok _ eq_refl)).
  - destruct (delete_audio_id_outcomes mem_client env0 "1-a.wav"
                (mkSt (with_delete_fault timeout_fault three_recordings) []))
      as (_ & _ & Hfault & _).
    exact (proj1 (Hfault timeout_fault _ eq_refl)).
Defined.

(** Names shown for the three recordings: the attribute where there is one,
    the trailing key segment or the identifier where there is none, and no
    name when the metadata fetch fails. *)
Lemma display_name_recovery_witness :
  (exists items,
      (get_audio mem_client env0 (mkSt three_recordings [])).1 = json (JArray items)
      /\ audio_json (listed "audio/1-a.wav") (Some "talk.wav")
           "https://signed.test/audio/1-a.wav?expires=3600" ∈ items
      /\ audio_json (listed "audio/3-c.wav") (Some "3-c.wav")
           "https://signed.test/audio/3-c.wav?expires=3600" ∈ items)
  /\ (audio_entry mem_client env0 (listed "audio/2-b.wav")
        (mkSt (with_head_fault "audio/2-b.wav" timeout_fault three_recordings) [])).1 = Ok None
  /\ (get_audio_id mem_client env0 "1-a.wav" (mkSt three_recordings [])).1 =
       json (JObject [ ("id", JString "1-a.wav"); ("name", JString "talk.wav");
                       ("url", JString "https://signed.test/audio/1-a.wav?expires=3600") ])
  /\ (get_audio_id mem_client env0 "3-c.wav" (mkSt three_recordings [])).1 =
       json (JObject [ ("id", JString "3-c.wav"); ("name", JString "3-c.wav");
                       ("url", JString "https://signed.test/audio/3-c.wav?expires=3600") ])
  /\ field "name"
       (get_audio_id mem_client env0 "2-b.wav"
          (mkSt (with_head_fault "audio/2-b.wav" timeout_fault three_recordings) [])).1 = None.
Proof.
  destruct (display_name_recovery mem_client env0 (mkSt three_recordings []))
    as (Hlist & _ & Hget & _).
  destruct (display_name_recovery mem_client env0
              (mkSt (with_head_fault "audio/2-b.wav" timeout_fault three_recordings) []))
    as (_ & Hnull & _ & Hnoname).
  split; [|split; [|split; [|split]]].
  - destruct (Hlist [ listed "audio/3-c.wav"; listed "audio/1-a.wav"; listed "audio/2-b.wav" ]
                (listed "audio/1-a.wav") (mkHead (named "talk.wav"))
                "https://signed.test/audio/1-a.wav?expires=3600"
                eq_refl (list_elem_of_further _ _ _ (list_elem_of_here _ _)) eq_refl eq_refl)
      as (shown1 & items1 & Hr1 & Hin1 & Hpresent1 & _).
    destruct (Hlist [ listed "audio/3-c.wav"; listed "audio/1-a.wav"; listed "audio/2-b.wav" ]
                (listed "audio/3-c.wav") (mkHead None)
                "https://signed.test/audio/3-c.wav?expires=3600"
                eq_refl (list_elem_of_here _ _) eq_refl eq_refl)
      as (shown3 & items3 & Hr3 & Hin3 & _ & Habsent3).
    rewrite Hr1 in Hr3. injection Hr3 as <-.
    rewrite (Hpresent1 "talk.wav" eq_refl ltac:(discriminate)) in Hin1.
    specialize (Habsent3 eq_refl). injection Habsent3 as <-.
    exists items1. exact (conj Hr1 (conj Hin1 Hin3)).
  - exact (Hnull (listed "audio/2-b.wav") timeout_fault eq_refl).
  - destruct (Hget "1-a.wav" (mkHead (named "talk.wav"))
                "https://signed.test/audio/1-a.wav?expires=3600" eq_refl eq_refl)
      as (shown & Hr & Hpresent & _).
    rewrite Hr, (Hpresent "talk.wav" eq_refl ltac:(discriminate)). reflexivity.
  - destruct (Hget "3-c.wav" (mkHead None)
                "https://signed.test/audio/3-c.wav?expires=3600" eq_refl eq_refl)
      as (shown & Hr & _ & Habsent).
    rewrite Hr. destruct (Habsent eq_refl) as [-> _]. reflexivity.
  - exact (proj1 (Hnoname "2-b.wav" timeout_fault eq_refl)).
Defined.


(** A timed-out storage call on each route. *)
Lemma storage_fault_responses_witness :
  (post_upload mem_client env0 (Some clip) draws0
     (mkSt (with_put_fault timeout_fault (mem_of [])) [])).1 =
    status_json 500 (JObject [ ("error", JString "Upload failed");
                               ("details", JString "socket hang up") ])
  /\ (post_audio mem_client env0 (ParsedBody (Some demo)) draws0
        (mkSt (with_put_fault timeout_fault (mem_of [])) [])).1 =
       status_json 500 (JObject [ ("error", JString "Audio upload failed");
                                  ("details", JString "socket hang up") ])
  /\ (get_videos mem_client env0
        (mkSt (with_list_fault timeout_fault three_recordings) [])).1 =
       status_json 500 (JObject [ ("error", JString "Failed to fetch videos") ])
  /\ (get_audio mem_client env0
        (mkSt (with_list_fault timeout_fault three_recordings) [])).1 =
       status_json 500 (JObject [ ("error", JString "Failed to fetch audio recordings") ])
  /\ (get_audio_id mem_client env0 "2-b.wav"
        (mkSt (with_head_fault "audio/2-b.wav" timeout_fault three_recordings) [])).1 =
       status_json 500 (JObject [ ("error", JString "Failed to fetch audio recording") ])
  /\ (delete_audio_id mem_client env0 "2-b.wav"
        (mkSt (with_delete_fault timeout_fault three_recordings) [])).1 =
       status_json 500 (JObject [ ("error", JString "Failed to delete audio recording") ]).
Proof.
  destruct (storage_fault_responses mem_client env0 timeout_fault)
    as (Hupload & Haudio & Hvideos & Hlist & Hget & Hdelete).
  split; [|split; [|split; [|split; [|split]]]].
  - exact (Hupload clip draws0 (mkSt (with_put_fault timeout_fault (mem_of [])) [])
             _ _ eq_refl eq_refl).
  - exact (Haudio demo draws0 (mkSt (with_put_fault timeout_fault (mem_of [])) [])
             _ _ eq_refl (or_introl eq_refl)).
  - exact (Hvideos (mkSt (with_list_fault timeout_fault three_recordings) []) eq_refl).
- exact (Hlist (mkSt (with_list_fault timeout_fault three_recordings) []) eq_refl).
- exact (Hget "2-b.wav"
           (mkSt (with_head_fault "audio/2-b.wav" timeout_fault three_recordings) [])
           eq_refl).
- exact (Hdelete "2-b.wav" (mkSt (with_delete_fault timeout_fault three_recordings) [])
           eq_refl).
Defined.

(** ** Further facts about the JavaScript primitives *)

Section JSMore.







(** Decimal digits are neither dashes nor slashes. *)
Lemma digits_without_dash (d : Decimal.uint) :
  JS.includes "-"%char (NilEmpty.string_of_uint d) = false.
Proof. induction d; simpl; done. Qed.



Lemma toString_without_dash (n : Z) :
  0 <= n -> JS.includes "-"%char (JS.toString n) = false.
Proof.
  intros Hn. unfold JS.toString. destruct n as [|p|p]; [done| |lia].
  simpl. unfold NilZero.string_of_uint.
  pose proof (digits_without_dash (Pos.to_uint p)) as Hd.
  by destruct (Pos.to_uint p).
Qed.

Lemma toString_inj (a b : Z) : JS.toString a = JS.toString b -> a = b.
Proof.
  intros Heq. pose proof (toString_reads_back a) as Ha.
  rewrite Heq, toString_reads_back in Ha. by injection Ha.
Qed.

(** Two strings cut at the first occurrence of a character agree part by
    part. *)
Lemma cut_at_first_inj (c : ascii) (a b x y : string) :
  JS.includes c a = false -> JS.includes c b = false ->
  a ++ String c x = b ++ String c y -> a = b /\ x = y.
Proof.
  revert b. induction a as [|p a IH]; intros [|q b]; simpl.
  - intros _ _ Heq. injection Heq as ->. done.
  - intros _ [Hq _]%orb_false_iff Heq. injection Heq as <- _.
    by rewrite Ascii.eqb_refl in Hq.
  - intros [Hp _]%orb_false_iff _ Heq. injection Heq as -> _.
    by rewrite Ascii.eqb_refl in Hp.
  - intros [_ Ha]%orb_false_iff [_ Hb]%orb_false_iff Heq.
    injection Heq as -> Hrest.
    destruct (IH b Ha Hb Hrest) as [-> ->]. done.
Qed.

End JSMore.

(** ** Running the batches of the listing handlers *)

Section RunsMore.

Context {W : Type} (s3Client : S3Client W) (env : Env).

(** A batch of callbacks that only read: the world stays, the log grows by
    each callback's calls, and the outcome is the settled list. *)
Lemma promise_all_map_reads {A B} (f : A -> M W B)
    (g : W -> A -> Result B) (c : W -> A -> list Call) :
  (forall x st, f x st = (g (world st) x, mkSt (world st) (calls st ++ c (world st) x))) ->
  forall l st,
    promise_all_map f l st =
      (settle (g (world st) <$> l),
       mkSt (world st) (calls st ++ (l ≫= c (world st)))).
Proof.
  intros Hf l. induction l as [|x l IH]; intros st.
  - simpl. unfold ret. rewrite app_nil_r. by destruct st.
  - simpl. rewrite Hf, IH. simpl. rewrite <- app_assoc. reflexivity.
Qed.

Lemma settle_all_ok {A B} (g : A -> Result B) (l : list A) (ys : list B) :
  Forall2 (fun x y => g x = Ok y) l ys -> settle (g <$> l) = Ok ys.
Proof.
  induction 1 as [|x y l ys Hx _ IH]; csimpl; [done|]. by rewrite Hx, IH.
Qed.

Lemma settle_one_throw {A B} (g : A -> Result B) (l : list A) (x : A) (e : JS.Error) :
  x ∈ l -> g x = Throw e -> exists e', settle (g <$> l) = Throw e'.
Proof.
  induction 1 as [x l|x y l _ IH]; intros Hx; csimpl.
  - rewrite Hx. eauto.
  - destruct (IH Hx) as [e' ->]. destruct (g y); eauto.
Qed.

Lemma video_entry_run (file : S3Object) (st : St W) :
  (let getObjectCommand := GetObjectCommand (S3_BUCKET_NAME env) (objKey file) in
   let* signedUrl := getSignedUrl s3Client getObjectCommand 3600 in
   ret (JObject [ ("name", JString (objKey file));
                  ("url", JString signedUrl);
                  ("lastModified", JDate (LastModified file));
                  ("size", JNumber (Size file)) ])) st =
    (video_entry_result s3Client env (world st) file,
     mkSt (world st) (calls st ++ video_entry_calls env file)).
Proof.
  unfold bind, getSignedUrl, video_entry_result, video_entry_calls, ret. simpl.
  by destruct (presign _ _ _ _).
Qed.

(** [GET /videos] once the enumeration has come back. *)
Lemma get_videos_listed (contents : option (list S3Object)) (st : St W) :
  list_objects s3Client (S3_BUCKET_NAME env) None (world st) = Ok (mkList contents) ->
  get_videos s3Client env st =
    (match settle (video_entry_result s3Client env (world st) <$> default [] contents) with
     | Ok videos => json (JArray videos)
     | Throw _ => status_json 500 (JObject [ ("error", JString "Failed to fetch videos") ])
     end,
     mkSt (world st)
          (calls st ++ Send (ListObjectsV2Command (S3_BUCKET_NAME env) None)
             :: (default [] contents ≫= video_entry_calls env))).
Proof.
  intros Hlist. unfold get_videos, respond, bind, send_list. rewrite Hlist. simpl.
  rewrite (promise_all_map_reads _ (video_entry_result s3Client env)
             (fun _ => video_entry_calls env) video_entry_run).
  simpl. rewrite <- app_assoc. simpl.
  by destruct (settle _).
Qed.

Lemma audio_entry_calls_read (w : W) (file : S3Object) :
  Forall (is_read_call env) (audio_entry_calls s3Client env w file).
Proof.
  unfold audio_entry_calls. constructor; [done|].
  destruct (head_object _ _ _ _); by repeat constructor.
Qed.

Lemma Forall_bind_calls {A} (P : Call -> Prop) (c : A -> list Call) (l : list A) :
  (forall x, Forall P (c x)) -> Forall P (l ≫= c).
Proof.
  intros Hc. induction l as [|x l IH]; csimpl; [constructor|].
  apply Forall_app. split; [apply Hc|apply IH].
Qed.

End RunsMore.

(** ** Further properties of the handlers *)

Section Extras.

Context {W : Type} (s3Client : S3Client W) (env : Env).

(** X1.  When the enumeration of the plain listing succeeds and every
    object's URL is minted, the answer is 200 with one entry per object, in
    enumeration order, each made of the key as [name], the minted URL and
    the object's [lastModified] and [size]; an enumeration whose [Contents]
    is undefined gives the empty array. *)
Theorem get_videos_lists_every_object
    (st : St W) (contents : option (list S3Object)) (urls : list string) :
  list_objects s3Client (S3_BUCKET_NAME env) None (world st) = Ok (mkList contents) ->
  Forall2 (fun file url =>
             presign s3Client (GetObjectCommand (S3_BUCKET_NAME env) (objKey file)) 3600
                     (world st) = Ok url)
          (default [] contents) urls ->
  (get_videos s3Client env st).1 =
    json (JArray (zip_with video_json (default [] contents) urls))
  /\ (contents = None -> (get_videos s3Client env st).1 = json (JArray [])).
Proof.
  intros Hlist Hurls.
  assert (Hrun : (get_videos s3Client env st).1 =
                   json (JArray (zip_with video_json (default [] contents) urls))).
  { rewrite (get_videos_listed _ _ _ _ Hlist). simpl.
    rewrite (settle_all_ok _ _ (zip_with video_json (default [] contents) urls)); [done|].
    induction Hurls as [|file url files urls Hurl _ IH]; simpl; constructor; [|done].
    unfold video_entry_result. by rewrite Hurl. }
  split; [done|].
  intros ->. rewrite Hrun. simpl in *. by inversion Hurls.
Qed.

(** X2.  The plain listing is all or nothing: if minting the URL of any one
    enumerated object throws, the answer is the 500 error body and no entry
    of any other object is returned. *)
Theorem get_videos_all_or_nothing
    (st : St W) (contents : option (list S3Object)) (file : S3Object) (e : JS.Error) :
  list_objects s3Client (S3_BUCKET_NAME env) None (world st) = Ok (mkList contents) ->
  file ∈ default [] contents ->
  presign s3Client (GetObjectCommand (S3_BUCKET_NAME env) (objKey file)) 3600 (world st)
    = Throw e ->
  (get_videos s3Client env st).1 =
    status_json 500 (JObject [ ("error", JString "Failed to fetch videos") ]).
Proof.
  intros Hlist Hin Hsign.
  rewrite (get_videos_listed _ _ _ _ Hlist). simpl.
  destruct (settle_one_throw (video_entry_result s3Client env (world st))
              (default [] contents) file e Hin) as [e' ->]; [|done].
  unfold video_entry_result. by rewrite Hsign.
Qed.

(** X3.  The routes registered with [app.get] only read: the storage world
    after the request is the world before it, and every call the handler
    logged is an enumeration, a metadata fetch or the minting of a one-hour
    [GetObject] URL, on the configured bucket. *)
Theorem get_routes_only_read (r : Request) (st : St W) :
  is_get r = true ->
  exists new,
    (app s3Client env r st).2 = mkSt (world st) (calls st ++ new)
    /\ Forall (is_read_call env) new.
Proof.
  destruct r as [|file d| |req d| |id|id]; try done; intros _; simpl.
  - exists []. rewrite app_nil_r. by destruct st.
  - destruct (list_objects s3Client (S3_BUCKET_NAME env) None (world st))
      as [[contents]|e] eqn:Hlist.
    + rewrite (get_videos_listed _ _ _ _ Hlist). simpl. eexists. split; [done|].
      constructor; [done|]. apply Forall_bind_calls. intros file.
      by repeat constructor.
    + unfold get_videos, respond, bind, send_list. rewrite Hlist. simpl.
      eexists. split; [done|]. by repeat constructor.
  - destruct (list_objects s3Client (S3_BUCKET_NAME env) (Some "audio/") (world st))
      as [[[files|]]|e] eqn:Hlist.
    + rewrite (get_audio_listed _ _ _ _ Hlist). simpl. eexists. split; [done|].
      constructor; [done|]. apply Forall_bind_calls. apply audio_entry_calls_read.
    + rewrite (get_audio_undefined_contents _ _ _ Hlist). simpl.
      eexists. split; [done|]. by repeat constructor.
    + unfold get_audio, respond, bind, send_list. rewrite Hlist. simpl.
      eexists. split; [done|]. by repeat constructor.
  - unfold get_audio_id, respond, bind, send_head, getSignedUrl. simpl.
    destruct (head_object _ _ _ _) as [metadata|e]; simpl.
    + destruct (presign _ _ _ _) as [url|e]; simpl; rewrite <- app_assoc;
        (eexists; split; [done|]; by repeat constructor).
    + eexists. split; [done|]. by repeat constructor.
Qed.



(** X6.  Upload, then get by id.  When the audio upload succeeds and the
    store afterwards returns for the new key the metadata it was given, a
    get-by-id on the [id] of the upload response answers 200 with that id,
    the uploader's file name (when it is not empty) and a minted URL. *)
Theorem upload_then_get_by_id
    (f : File) (d : Draws) (st : St W) (w' : W) (url : string) :
  let id := JS.toString (Date_now d) ++ "-" ++ uuidv4 d ++ "."
              ++ JS.tmpl (JS.pop (JS.split dot (originalname f))) in
  let key := "audio/" ++ id in
  let params :=
    mkPut (S3_BUCKET_NAME env) key (buffer f) (mimetype f)
          (Some {[ "originalname" := originalname f ]}) in
  let uploaded := post_audio s3Client env (ParsedBody (Some f)) d st in
  put_object s3Client params (world st) = (Ok tt, w') ->
  presign s3Client (GetObjectCommand (S3_BUCKET_NAME env) key) 3600 w' = Ok url ->
  head_object s3Client (S3_BUCKET_NAME env) key w' = Ok (mkHead (Metadata params)) ->
  originalname f <> "" ->
  field "id" uploaded.1 = Some (JString id)
  /\ (get_audio_id s3Client env id uploaded.2).1 =
       json (JObject [ ("id", JString id);
                       ("name", JString (originalname f));
                       ("url", JString url) ]).
Proof.
  intros id key params uploaded Hput Hsign Hhead Hname.
  assert (Hup : uploaded.2 =
                  mkSt w' (calls st ++ [ Send (PutObjectCommand params);
                                         GetSignedUrl (GetObjectCommand (S3_BUCKET_NAME env) key)
                                                      3600 ])
                /\ field "id" uploaded.1 = Some (JString id)).
  { unfold uploaded, post_audio, respond, bind, send_put, getSignedUrl. simpl.
    fold id. fold key. fold params. rewrite Hput. simpl. rewrite Hsign. simpl.
    rewrite <- app_assoc. done. }
  destruct Hup as [Hstate Hid]. split; [done|].
  rewrite Hstate. unfold get_audio_id, respond, bind, send_head, getSignedUrl. simpl.
  fold key. rewrite Hhead. simpl. rewrite Hsign. simpl.
  unfold metadata_originalname. simpl. rewrite lookup_singleton_eq.
  by destruct (originalname f).
Qed.


(** X8.  The audio listing keeps the enumeration order and never invents
    entries: its array is, in order, the entries of a sublist of the
    enumerated objects, so it is never longer than the enumeration. *)
Theorem get_audio_keeps_order (st : St W) (files : list S3Object) :
  list_objects s3Client (S3_BUCKET_NAME env) (Some "audio/") (world st)
    = Ok (mkList (Some files)) ->
  exists items kept,
    (get_audio s3Client env st).1 = json (JArray items)
    /\ sublist kept files
    /\ Forall2 (fun file item => audio_entry_value s3Client env (world st) file = Some item)
               kept items
    /\ (length items <= length files)%nat.
Proof.
  intros Hlist.
  assert (Hkept : forall l : list S3Object,
             exists kept,
               sublist kept l
               /\ Forall2 (fun file item =>
                             audio_entry_value s3Client env (world st) file = Some item)
                          kept (omap (audio_entry_value s3Client env (world st)) l)).
  { induction l as [|file l (kept & Hsub & Hall)]; csimpl.
    - exists []. split; constructor.
    - destruct (audio_entry_value s3Client env (world st) file) as [item|] eqn:Hitem.
      + exists (file :: kept). split; [by constructor|by constructor].
      + exists kept. split; [by constructor|done]. }
  destruct (Hkept files) as (kept & Hsub & Hall).
  exists (omap (audio_entry_value s3Client env (world st)) files), kept.
  split; [by rewrite (get_audio_listed _ _ _ _ Hlist)|].
  split; [done|]. split; [done|].
  rewrite <- (Forall2_length _ _ _ Hall). by apply sublist_length.
Qed.

(** X9.  In the audio listing every enumerated object gets a metadata
    fetch, and a URL is minted only for an enumerated object whose metadata
    fetch succeeded, always for one hour. *)
Theorem get_audio_mints_after_metadata (st : St W) (files : list S3Object) :
  list_objects s3Client (S3_BUCKET_NAME env) (Some "audio/") (world st)
    = Ok (mkList (Some files)) ->
  exists new,
    calls (get_audio s3Client env st).2 = (calls st ++ new)%list
    /\ (forall file,
          file ∈ files ->
          Send (HeadObjectCommand (S3_BUCKET_NAME env) (objKey file)) ∈ new)
    /\ (forall cmd expiresIn,
          GetSignedUrl cmd expiresIn ∈ new ->
          exists file metadata,
            file ∈ files
            /\ cmd = GetObjectCommand (S3_BUCKET_NAME env) (objKey file)
            /\ expiresIn = 3600
            /\ head_object s3Client (S3_BUCKET_NAME env) (objKey file) (world st)
               = Ok metadata).
Proof.
  intros Hlist. rewrite (get_audio_listed _ _ _ _ Hlist). simpl.
  eexists. split; [done|]. split.
  - intros file Hin. apply list_elem_of_further, list_elem_of_bind.
    exists file. split; [|done]. apply list_elem_of_here.
  - intros cmd expiresIn Hcall.
    apply elem_of_cons in Hcall as [Hcall|Hcall]; [done|].
    apply list_elem_of_bind in Hcall as (file & Hcall & Hin).
    unfold audio_entry_calls in Hcall.
    apply elem_of_cons in Hcall as [Hcall|Hcall]; [done|].
    destruct (head_object _ _ _ _) as [metadata|e] eqn:Hhead.
    + apply list_elem_of_singleton in Hcall. injection Hcall as -> ->.
      exists file, metadata. done.
    + by apply elem_of_nil in Hcall.
Qed.

(** X10.  Plain upload keys do not collide across different uploads: for
    clock readings at or after the epoch, two uploads that differ in the
    clock reading or in the original file name send their puts under
    different keys. *)
Theorem plain_keys_differ
    (f1 f2 : File) (d1 d2 : Draws) (st1 st2 : St W) (p1 p2 : PutParams) :
  0 <= Date_now d1 -> 0 <= Date_now d2 ->
  last (calls (post_upload s3Client env (Some f1) d1 st1).2) = Some (Send (PutObjectCommand p1)) ->
  last (calls (post_upload s3Client env (Some f2) d2 st2).2) = Some (Send (PutObjectCommand p2)) ->
  Date_now d1 <> Date_now d2 \/ originalname f1 <> originalname f2 ->
  Key p1 <> Key p2.
Proof.
  intros Ht1 Ht2 Hp1 Hp2 Hdiff Hkey.
  assert (Hlog : forall f d st p,
             last (calls (post_upload s3Client env (Some f) d st).2)
               = Some (Send (PutObjectCommand p)) ->
             Key p = JS.toString (Date_now d) ++ String "-" (originalname f)).
  { intros f d st p. unfold post_upload, respond, bind, send_put. simpl.
    destruct (put_object _ _ _) as [[[]|e] w']; simpl;
      rewrite last_snoc; intros Hlast; injection Hlast as <-; done. }
  rewrite (Hlog _ _ _ _ Hp1), (Hlog _ _ _ _ Hp2) in Hkey.
  apply cut_at_first_inj in Hkey as [Ht Hn];
    [|by apply toString_without_dash..].
  apply toString_inj in Ht. by destruct Hdiff.
Qed.

(** X11.  The audio upload does not undo its put: when the put succeeds
    and minting the URL then throws, the answer is the 500 error body with
    the fault's message, the storage world is the one the put left, and the
    put and the minting are the only calls made (no delete follows). *)
Theorem post_audio_keeps_object_on_sign_fault
    (f : File) (d : Draws) (st : St W) (w' : W) (e : JS.Error) :
  let id := JS.toString (Date_now d) ++ "-" ++ uuidv4 d ++ "."
              ++ JS.tmpl (JS.pop (JS.split dot (originalname f))) in
  let key := "audio/" ++ id in
  let params :=
    mkPut (S3_BUCKET_NAME env) key (buffer f) (mimetype f)
          (Some {[ "originalname" := originalname f ]}) in
  put_object s3Client params (world st) = (Ok tt, w') ->
  presign s3Client (GetObjectCommand (S3_BUCKET_NAME env) key) 3600 w' = Throw e ->
  post_audio s3Client env (ParsedBody (Some f)) d st =
    (status_json 500 (JObject [ ("error", JString "Audio upload failed");
                                ("details", JString (JS.message e)) ]),
     mkSt w' (calls st ++ [ Send (PutObjectCommand params);
                            GetSignedUrl (GetObjectCommand (S3_BUCKET_NAME env) key) 3600 ])).
Proof.
  intros id key params Hput Hsign.
  unfold post_audio, respond, bind, send_put, getSignedUrl. simpl.
  fold id. fold key. fold params.
  rewrite Hput. simpl. rewrite Hsign. simpl. by rewrite <- app_assoc.
Qed.

(** X12.  In the audio listing the [type] of an object whose key holds no
    dot is the whole key, prefix included. *)
Theorem get_audio_type_of_dotless_key
    (st : St W) (files : list S3Object) (file : S3Object)
    (metadata : HeadOutput) (url : string) :
  list_objects s3Client (S3_BUCKET_NAME env) (Some "audio/") (world st)
    = Ok (mkList (Some files)) ->
  file ∈ files ->
  head_object s3Client (S3_BUCKET_NAME env) (objKey file) (world st) = Ok metadata ->
  presign s3Client (GetObjectCommand (S3_BUCKET_NAME env) (objKey file)) 3600 (world st)
    = Ok url ->
  JS.includes dot (objKey file) = false ->
  exists items id shown,
    (get_audio s3Client env st).1 = json (JArray items)
    /\ JObject [ ("id", JString id);
                 ("name", JString shown);
                 ("url", JString url);
                 ("lastModified", JDate (LastModified file));
                 ("size", JNumber (Size file));
                 ("type", JString (objKey file)) ] ∈ items.
Proof.
  intros Hlist Hin Hhead Hsign Hnodot.
  destruct (pop_split_defined slash (objKey file)) as [id Hid].
  assert (Hshown : is_Some (listed_name file metadata)).
  { unfold listed_name, JS.or_else. rewrite Hid.
    destruct (metadata_originalname metadata) as [[|c n]|]; simpl; eauto. }
  destruct Hshown as [shown Hshown].
  exists (omap (audio_entry_value s3Client env (world st)) files), id, shown.
  split; [by rewrite (get_audio_listed _ _ _ _ Hlist)|].
  apply (elem_of_omap_Some _ _ file); [done|].
  unfold audio_entry_value. rewrite Hhead, Hsign.
  unfold audio_json. by rewrite Hshown, Hid, (pop_split_whole _ _ Hnodot).
Qed.

End Extras.

(** ** The further properties on sample requests *)

(** The plain listing of the three recordings. *)
Lemma get_videos_lists_every_object_witness :
  (get_videos mem_client env0 (mkSt three_recordings [])).1 =
    json (JArray
            [ JObject [ ("name", JString "audio/3-c.wav");
                        ("url", JString "https://signed.test/audio/3-c.wav?expires=3600");
                        ("lastModified", JDate 1699999999000); ("size", JNumber 4) ];
              JObject [ ("name", JString "audio/1-a.wav");
                        ("url", JString "https://signed.test/audio/1-a.wav?expires=3600");
                        ("lastModified", JDate 1699999999000); ("size", JNumber 4) ];
              JObject [ ("name", JString "audio/2-b.wav");
                        ("url", JString "https://signed.test/audio/2-b.wav?expires=3600");
                        ("lastModified", JDate 1699999999000); ("size", JNumber 4) ] ]).
Proof.
  refine (proj1 (get_videos_lists_every_object mem_client env0 (mkSt three_recordings [])
                   (Some [ listed "audio/3-c.wav"; listed "audio/1-a.wav";
                           listed "audio/2-b.wav" ])
                   [ "https://signed.test/audio/3-c.wav?expires=3600";
                     "https://signed.test/audio/1-a.wav?expires=3600";
                     "https://signed.test/audio/2-b.wav?expires=3600" ]
                   eq_refl _)).
  repeat constructor.
Defined.

(** The plain listing when minting the URL of one recording fails. *)
Lemma get_videos_all_or_nothing_witness :
  (get_videos mem_client env0
     (mkSt (with_sign_fault "audio/1-a.wav" timeout_fault three_recordings) [])).1 =
    status_json 500 (JObject [ ("error", JString "Failed to fetch videos") ]).
Proof.
  exact (get_videos_all_or_nothing mem_client env0
           (mkSt (with_sign_fault "audio/1-a.wav" timeout_fault three_recordings) [])
           (Some [ listed "audio/3-c.wav"; listed "audio/1-a.wav"; listed "audio/2-b.wav" ])
           (listed "audio/1-a.wav") timeout_fault
           eq_refl (list_elem_of_further _ _ _ (list_elem_of_here _ _)) eq_refl).
Defined.

(** The audio listing leaves the three recordings where they are. *)
Lemma get_routes_only_read_witness :
  world (app mem_client env0 GET_api_audio (mkSt three_recordings [])).2 = three_recordings.
Proof.
  destruct (get_routes_only_read mem_client env0 GET_api_audio (mkSt three_recordings [])
              eq_refl) as (new & Hstate & _).
  rewrite Hstate. reflexivity.
Defined.


(** [demo.wav] uploaded into the empty bucket, then fetched by its id. *)
Lemma upload_then_get_by_id_witness :
  (get_audio_id mem_client env0 demo_id
     (post_audio mem_client env0 (ParsedBody (Some demo)) draws0 (mkSt (mem_of []) [])).2).1 =
    json (JObject [ ("id", JString demo_id);
                    ("name", JString "demo.wav");
                    ("url", JString ("https://signed.test/audio/" ++ demo_id ++ "?expires=3600")) ]).
Proof.
  refine (proj2 (upload_then_get_by_id mem_client env0 demo draws0 (mkSt (mem_of []) [])
                   (mem_put (mkPut (Some "media") ("audio/" ++ demo_id) riff "audio/wav"
                                   (named "demo.wav"))
                            (mem_of [])).2
                   ("https://signed.test/audio/" ++ demo_id ++ "?expires=3600")
                   eq_refl eq_refl eq_refl _)).
  discriminate.
Defined.


(** The three recordings listed while one metadata fetch fails: two
    entries out of three. *)
Lemma get_audio_keeps_order_witness :
  exists items kept,
    (get_audio mem_client env0
       (mkSt (with_head_fault "audio/1-a.wav" timeout_fault three_recordings) [])).1
      = json (JArray items)
    /\ sublist kept [ listed "audio/3-c.wav"; listed "audio/1-a.wav"; listed "audio/2-b.wav" ]
    /\ (length items <= 3)%nat.
Proof.
  destruct (get_audio_keeps_order mem_client env0
              (mkSt (with_head_fault "audio/1-a.wav" timeout_fault three_recordings) [])
              [ listed "audio/3-c.wav"; listed "audio/1-a.wav"; listed "audio/2-b.wav" ]
              eq_refl) as (items & kept & Hr & Hsub & _ & Hlen).
  exists items, kept. exact (conj Hr (conj Hsub Hlen)).
Defined.

(** The same listing: each recording's metadata is fetched. *)
Lemma get_audio_mints_after_metadata_witness :
  exists new,
    calls (get_audio mem_client env0
             (mkSt (with_head_fault "audio/1-a.wav" timeout_fault three_recordings) [])).2
      = new
    /\ Send (HeadObjectCommand (Some "media") "audio/1-a.wav") ∈ new.
Proof.
  destruct (get_audio_mints_after_metadata mem_client env0
              (mkSt (with_head_fault "audio/1-a.wav" timeout_fault three_recordings) [])
              [ listed "audio/3-c.wav"; listed "audio/1-a.wav"; listed "audio/2-b.wav" ]
              eq_refl) as (new & Hcalls & Hheads & _).
  exists new. split; [exact Hcalls|].
  exact (Hheads (listed "audio/1-a.wav") (list_elem_of_further _ _ _ (list_elem_of_here _ _))).
Defined.

(** [clip.mp4] uploaded at two different milliseconds. *)
Lemma plain_keys_differ_witness :
  "1700000000123-clip.mp4" <> "1700000000124-clip.mp4".
Proof.
  refine (plain_keys_differ mem_client env0 clip clip draws0
            (mkDraws 1700000000124 (uuidv4 draws0) (new_Date draws0))
            (mkSt (mem_of []) []) (mkSt (mem_of []) [])
            (mkPut (Some "media") "1700000000123-clip.mp4" riff "video/mp4" None)
            (mkPut (Some "media") "1700000000124-clip.mp4" riff "video/mp4" None)
            _ _ eq_refl eq_refl (or_introl _)).
  - discriminate.
  - discriminate.
  - discriminate.
Defined.

(** [demo.wav] uploaded while minting URLs fails: the object is in the
    bucket all the same. *)
Lemma post_audio_keeps_object_on_sign_fault_witness :
  is_Some
    (objects
       (world
          (post_audio mem_client env0 (ParsedBody (Some demo)) draws0
             (mkSt (with_sign_fault ("audio/" ++ demo_id) timeout_fault (mem_of [])) [])).2)
     !! ("audio/" ++ demo_id)).
Proof.
  rewrite (post_audio_keeps_object_on_sign_fault mem_client env0 demo draws0
             (mkSt (with_sign_fault ("audio/" ++ demo_id) timeout_fault (mem_of [])) [])
             (mem_put (mkPut (Some "media") ("audio/" ++ demo_id) riff "audio/wav"
                             (named "demo.wav"))
                      (with_sign_fault ("audio/" ++ demo_id) timeout_fault (mem_of []))).2
             timeout_fault eq_refl eq_refl).
  exact (ex_intro _ _ eq_refl).
Defined.

(** A recording stored under a key without a dot. *)
Lemma get_audio_type_of_dotless_key_witness :
  exists items id shown,
    (get_audio mem_client env0 (mkSt (mem_of [ ("audio/memo", recording None) ]) [])).1
      = json (JArray items)
    /\ JObject [ ("id", JString id);
                 ("name", JString shown);
                 ("url", JString "https://signed.test/audio/memo?expires=3600");
                 ("lastModified", JDate 1699999999000);
                 ("size", JNumber 4);
                 ("type", JString "audio/memo") ] ∈ items.
Proof.
  exact (get_audio_type_of_dotless_key mem_client env0
           (mkSt (mem_of [ ("audio/memo", recording None) ]) [])
           [ listed "audio/memo" ] (listed "audio/memo") (mkHead None)
           "https://signed.test/audio/memo?expires=3600"
           eq_refl (list_elem_of_here _ _) eq_refl eq_refl eq_refl).
Defined.
